(** * Blogs-Backend: access control and article handlers

    A shallow embedding of the Express controllers and middleware of the
    blogging backend:

      - [signup], [login]            (src/controllers/authController.js)
      - [checkOwnership]             (src/middleware/checkOwnership.js)
      - [createArticle], [getAllArticles], [getArticleById],
        [updateArticle], [deleteArticle]
                                     (src/controllers/articleController.js)
      - [articleRoutes]              (src/routes/articleRoutes.js)

    Every handler is an [async] function whose whole body sits in one
    [try { ... } catch (error) { ... }].  The body is embedded in a state and
    exception monad over a [World] (the MySQL tables, a schedule of store
    failures, the clock, the console); the handler is the body under
    [try_catch].  The MySQL server, bcrypt and the HMAC primitive are
    collaborators outside the repository: they are Section variables. *)

From Stdlib Require Import ZArith List String Bool Lia DecimalString.
From Stdlib Require Import Sorted Permutation.
Import ListNotations.

Open Scope string_scope.
Open Scope Z_scope.

(** ** JavaScript values *)

Module Js.

(** The scalar values that travel through the handlers: JSON scalars of a
    request body or of a token payload, column values handed back by the
    driver, and [undefined] for a property that is not there.  Numbers are
    the integers (ids, counts, timestamps); JSON has no NaN.

    A string is held as the sequence of its UTF-16 code units, one
    character of the Rocq string for each unit, so that [String.length] is
    [.length] and [substring] cuts where [String.prototype.substring] cuts.
    The strings covered are those whose code units are below 256; a Rocq
    string is not read as the UTF-8 bytes of a text. *)
Inductive JsVal : Type :=
| JUndefined
| JNull
| JBool (b : bool)
| JNum (n : Z)
| JStr (s : string).

(** ToBoolean. *)
Definition truthy (v : JsVal) : bool :=
  match v with
  | JUndefined | JNull => false
  | JBool b => b
  | JNum n => negb (n =? 0)
  | JStr s => negb (s =? "")%string
  end.

(** The prefix operator [!v]. *)
Definition js_not (v : JsVal) : bool := negb (truthy v).

(** [a === b]: same type and same value, no conversion. *)
Definition strict_eq (a b : JsVal) : bool :=
  match a, b with
  | JUndefined, JUndefined => true
  | JNull, JNull => true
  | JBool x, JBool y => Bool.eqb x y
  | JNum x, JNum y => x =? y
  | JStr x, JStr y => (x =? y)%string
  | _, _ => false
  end.

(** [a !== b]. *)
Definition strict_ne (a b : JsVal) : bool := negb (strict_eq a b).

(** The type tag [typeof] distinguishes. *)
Inductive JsType : Type := TUndefined | TNull | TBoolean | TNumber | TString.

Definition type_of (v : JsVal) : JsType :=
  match v with
  | JUndefined => TUndefined
  | JNull => TNull
  | JBool _ => TBoolean
  | JNum _ => TNumber
  | JStr _ => TString
  end.


(** A plain object: its own properties in insertion order. *)
Definition Obj : Type := list (string * JsVal).

(** Property read [o.k]; a missing property reads [undefined]. *)
Fixpoint get (k : string) (o : Obj) : JsVal :=
  match o with
  | [] => JUndefined
  | (k', v) :: o' => if (k =? k')%string then v else get k o'
  end.

Definition keys (o : Obj) : list string := map fst o.

Definition has_key (k : string) (o : Obj) : bool :=
  existsb (fun k' => (k =? k')%string) (keys o).

End Js.
Export Js.

(** ** Exceptions and state *)

(** The value of an evaluation: a result, or a thrown error with its text. *)
Inductive Res (A : Type) : Type :=
| Ret (a : A)
| Throw (e : string).
Arguments Ret {A} a.
Arguments Throw {A} e.

(** ** The store *)

Record User : Type := mkUser {
  u_id : Z;
  u_username : JsVal;
  u_email : JsVal;
  u_password : JsVal;
  u_created_at : Z
}.

Record Article : Type := mkArticle {
  a_id : Z;
  a_title : JsVal;
  a_content : JsVal;
  a_summary : JsVal;
  a_category : JsVal;
  a_tags : JsVal;
  a_author_id : JsVal;
  a_created_at : Z
}.

(** What a request runs against.  [faults] schedules the outcome of the
    coming calls of [db.query]: [Some e] makes the call reject with [e]
    (server unreachable, constraint violation, ...), [None] or an exhausted
    schedule lets the statement execute. *)
Record World : Type := mkWorld {
  users : list User;
  articles : list Article;
  users_auto : Z;
  articles_auto : Z;
  clock : Z;
  entropy : Z;
  faults : list (option string);
  console : list string
}.

Definition set_users (us : list User) (n : Z) (w : World) : World :=
  mkWorld us (articles w) n (articles_auto w) (clock w) (entropy w)
          (faults w) (console w).

Definition set_articles (ars : list Article) (n : Z) (w : World) : World :=
  mkWorld (users w) ars (users_auto w) n (clock w) (entropy w)
          (faults w) (console w).

Definition set_entropy (s : Z) (w : World) : World :=
  mkWorld (users w) (articles w) (users_auto w) (articles_auto w) (clock w) s
          (faults w) (console w).

Definition set_faults (fs : list (option string)) (w : World) : World :=
  mkWorld (users w) (articles w) (users_auto w) (articles_auto w) (clock w)
          (entropy w) fs (console w).

(** [console.error(...)]. *)
Definition console_error (line : string) (w : World) : World :=
  mkWorld (users w) (articles w) (users_auto w) (articles_auto w) (clock w)
          (entropy w) (faults w) (console w ++ [line]).

(** The outcome the schedule holds for the [n]-th coming call of the store. *)
Definition fault_at (n : nat) (w : World) : option string :=
  nth n (faults w) None.

(** A call of the store uses up the head of the schedule. *)
Definition pop_fault (w : World) : World := set_faults (tl (faults w)) w.

(** The state and exception monad of a handler body. *)
Definition M (A : Type) : Type := World -> Res A * World.

Definition ret {A : Type} (a : A) : M A := fun w => (Ret a, w).

Definition throw {A : Type} (e : string) : M A := fun w => (Throw e, w).

Definition bind {A B : Type} (m : M A) (k : A -> M B) : M B :=
  fun w =>
    match m w with
    | (Ret a, w') => k a w'
    | (Throw e, w') => (Throw e, w')
    end.

Definition lift {A : Type} (r : Res A) : M A := fun w => (r, w).

Declare Scope js_scope.
Delimit Scope js_scope with js.
Notation "x <- m ;; k" := (bind m (fun x => k))
  (at level 100, m at next level, right associativity) : js_scope.
Notation "m ;;; k" := (bind m (fun _ => k))
  (at level 100, right associativity) : js_scope.

(** ** HTTP *)

(** A signed token: the claim set and the signature over it.  (On the wire
    it is the compact string of the two.) *)
Record Token : Type := mkToken {
  tk_payload : Obj;
  tk_sig : string
}.

(** A value of a JSON response body. *)
Inductive Field : Type :=
| FVal (v : JsVal)
| FToken (t : Token)
| FRow (r : Obj)
| FRows (rs : list Obj).

Record Response : Type := mkResponse {
  status : Z;
  json : list (string * Field)
}.

(** What a middleware or controller does with a request: answer it, or
    call [next()]. *)
Inductive Outcome : Type :=
| Respond (r : Response)
| Next.

Inductive AuthHeader : Type :=
| NoHeader
| BadHeader (raw : string)
| Bearer (t : Token).

(** What the handlers read of a request: the [:id] segment of the path,
    the body as [express.json()] parsed it, the authorization header and
    [req.user], which only the authentication gate sets. *)
Record Request : Type := mkRequest {
  params_id : JsVal;
  body : Obj;
  authorization : AuthHeader;
  user : option Obj
}.

Definition with_user (claims : Obj) (req : Request) : Request :=
  mkRequest (params_id req) (body req) (authorization req) (Some claims).

(** The literal bodies the handlers send. *)
Definition envelope (success : bool) (message : string)
  : list (string * Field) :=
  [("success", FVal (JBool success)); ("message", FVal (JStr message))].

Definition field (k : string) (o : list (string * Field)) : option Field :=
  option_map snd (find (fun kv => (fst kv =? k)%string) o).

Section Backend.

(** *** Collaborators outside the repository *)

(** MySQL's [=] between a column value and a bound parameter or another
    column; collation and numeric conversion are the server's. *)
Variable sql_eq : JsVal -> JsVal -> bool.

(** [bcrypt.hash(data, rounds)] with the salt drawn from the given
    entropy, and [bcrypt.compare(data, hash)]; either may reject. *)
Variable bcrypt_hash : Z -> JsVal -> Z -> Res JsVal.
Variable bcrypt_compare : JsVal -> JsVal -> Res bool.

(** The keyed signature of a claim set; it may fail. *)
Variable hmac : string -> Obj -> Res string.

(** Process-wide configuration. *)
Variable JWT_SECRET : string.
Variable JWT_EXPIRES_IN : Z.

(** The text of the authentication gate's 401, which the specification
    leaves open. *)
Variable unauthorized_message : string.

(** *** The connection pool: [await db.query(sql, params)]

    The call rejects when the schedule says so; otherwise the statement
    executes and its result comes back. *)

Definition db_query {A : Type} (stmt : World -> A * World) : M A :=
  fun w =>
    match fault_at 0 w with
    | Some e => (Throw e, pop_fault w)
    | None => (Ret (fst (stmt (pop_fault w))), snd (stmt (pop_fault w)))
    end.

(** The header of a data-changing statement's result. *)
Definition result_header (insertId : Z) (affected : nat) : Obj :=
  [("insertId", JNum insertId); ("affectedRows", JNum (Z.of_nat affected))].

Definition email_is (email : JsVal) (u : User) : bool :=
  sql_eq (u_email u) email.

Definition id_is (articleId : JsVal) (a : Article) : bool :=
  sql_eq (JNum (a_id a)) articleId.

Definition user_row (u : User) : Obj :=
  [("id", JNum (u_id u)); ("username", u_username u);
   ("email", u_email u); ("password", u_password u);
   ("created_at", JNum (u_created_at u))].

Definition article_row (a : Article) : Obj :=
  [("id", JNum (a_id a)); ("title", a_title a); ("content", a_content a);
   ("summary", a_summary a); ("category", a_category a);
   ("tags", a_tags a); ("author_id", a_author_id a);
   ("created_at", JNum (a_created_at a))].

(** [SELECT id FROM users WHERE email = ?] *)
Definition select_user_id_by_email (email : JsVal) (w : World)
  : list Obj * World :=
  (map (fun u => [("id", JNum (u_id u))]) (filter (email_is email) (users w)),
   w).

(** [INSERT INTO users (username, email, password) VALUES (?, ?, ?)] *)
Definition insert_user (username email password : JsVal) (w : World)
  : Obj * World :=
  (result_header (users_auto w) 1,
   set_users
     (users w ++ [mkUser (users_auto w) username email password (clock w)])
     (users_auto w + 1) w).

(** [SELECT * FROM users WHERE email = ?] *)
Definition select_user_by_email (email : JsVal) (w : World)
  : list Obj * World :=
  (map user_row (filter (email_is email) (users w)), w).

(** [SELECT author_id FROM articles WHERE id = ?] *)
Definition select_author_id (articleId : JsVal) (w : World)
  : list Obj * World :=
  (map (fun a => [("author_id", a_author_id a)])
       (filter (id_is articleId) (articles w)),
   w).

(** How the driver writes a bound parameter into the statement:
    [undefined], like [null], is written [NULL], and any other scalar is
    written as itself. *)
Definition sql_param (v : JsVal) : JsVal :=
  match v with
  | JUndefined => JNull
  | _ => v
  end.

(** [INSERT INTO articles (title, content, summary, category, tags,
    author_id) VALUES (?, ?, ?, ?, ?, ?)]

    [summary], [category] and [tags] are nullable columns and hold the
    parameter as the driver binds it, so [NULL] for an [undefined].
    [title], [content] and [author_id] are [NOT NULL]: a [NULL] bound to one
    of them is the server refusing the statement, a rejection of the call,
    which the schedule stands for; where the statement executes these
    columns hold the bound value. *)
Definition insert_article
           (title content summary category tags author_id : JsVal)
           (w : World) : Obj * World :=
  (result_header (articles_auto w) 1,
   set_articles
     (articles w ++
      [mkArticle (articles_auto w) title content (sql_param summary)
                 (sql_param category) (sql_param tags) author_id (clock w)])
     (articles_auto w + 1) w).

(** [articles a JOIN users u ON a.author_id = u.id] *)
Definition authored (w : World) : list (Article * User) :=
  flat_map
    (fun a =>
       map (fun u => (a, u))
           (filter (fun u => sql_eq (a_author_id a) (JNum (u_id u)))
                   (users w)))
    (articles w).

(** [ORDER BY a.created_at DESC]; rows of one timestamp keep their order. *)
Fixpoint insert_desc (x : Article * User) (l : list (Article * User))
  : list (Article * User) :=
  match l with
  | [] => [x]
  | y :: l' =>
      if a_created_at (fst y) <=? a_created_at (fst x)
      then x :: y :: l'
      else y :: insert_desc x l'
  end.

Definition order_by_created_at_desc (l : list (Article * User))
  : list (Article * User) :=
  fold_right insert_desc [] l.

(** [SELECT a.*, u.username FROM articles a JOIN users u
     ON a.author_id = u.id ORDER BY a.created_at DESC] *)
Definition select_articles (w : World) : list Obj * World :=
  (map (fun au =>
          (article_row (fst au) ++ [("username", u_username (snd au))])%list)
       (order_by_created_at_desc (authored w)),
   w).

(** [SELECT a.*, u.username, u.email FROM articles a JOIN users u
     ON a.author_id = u.id WHERE a.id = ?] *)
Definition article_with_author (au : Article * User) : Obj :=
  (article_row (fst au) ++
   [("username", u_username (snd au)); ("email", u_email (snd au))])%list.

Definition select_article_by_id (articleId : JsVal) (w : World)
  : list Obj * World :=
  (map article_with_author
       (filter (fun au => id_is articleId (fst au)) (authored w)),
   w).

(** [UPDATE articles SET title = ?, content = ?, summary = ?,
     category = ?, tags = ? WHERE id = ?]

    The columns are written as by the insert: the nullable [summary],
    [category] and [tags] hold the parameter as the driver binds it. *)
Definition set_content (title content summary category tags : JsVal)
           (a : Article) : Article :=
  mkArticle (a_id a) title content (sql_param summary) (sql_param category)
            (sql_param tags) (a_author_id a) (a_created_at a).

Definition update_article
           (title content summary category tags articleId : JsVal)
           (w : World) : Obj * World :=
  (result_header 0 (List.length (filter (id_is articleId) (articles w))),
   set_articles
     (map (fun a =>
             if id_is articleId a
             then set_content title content summary category tags a
             else a)
          (articles w))
     (articles_auto w) w).

(** [DELETE FROM articles WHERE id = ?] *)
Definition delete_article (articleId : JsVal) (w : World) : Obj * World :=
  (result_header 0 (List.length (filter (id_is articleId) (articles w))),
   set_articles (filter (fun a => negb (id_is articleId a)) (articles w))
                (articles_auto w) w).

(** *** Password hasher *)

(** [await bcrypt.hash(data, rounds)]: a fresh salt each call. *)
Definition bcrypt_hash_salted (data : JsVal) (rounds : Z) : M JsVal :=
  fun w => (bcrypt_hash (entropy w) data rounds,
            set_entropy (entropy w + 1) w).

(** *** Token issuer and verifier *)

(** Modelled from the spec: src/utils/generateToken.js is not among the
    sources.  [issue(claims: {id, email}) -> token] signs, under the
    process-wide secret, the claim set [{id, email, issuedAt, expiresAt}]
    derived from the object it is given, time-bounded by the configured
    expiry duration. *)
Definition token_claims (subject : Obj) (now : Z) : Obj :=
  [("id", get "id" subject); ("email", get "email" subject);
   ("issuedAt", JNum now); ("expiresAt", JNum (now + JWT_EXPIRES_IN))].

(** Modelled from the spec: the issuer of src/utils/generateToken.js, which
    is not among the sources.  It signs the claim set of its argument under
    the process-wide secret; a failure of the signature is thrown. *)
Definition generateToken (subject : Obj) : M Token :=
  fun w =>
    match hmac JWT_SECRET (token_claims subject (clock w)) with
    | Ret s => (Ret (mkToken (token_claims subject (clock w)) s), w)
    | Throw e => (Throw e, w)
    end.

Inductive AuthError : Type := Malformed | Expired.

(** Modelled from the spec: [verify(token) -> claims | AuthError], with
    [Malformed] when the signature does not match and [Expired] when the
    token is verified at or after its expiry timestamp. *)
Definition verify (t : Token) (now : Z) : Obj + AuthError :=
  match hmac JWT_SECRET (tk_payload t) with
  | Ret s =>
      if (s =? tk_sig t)%string then
        match get "expiresAt" (tk_payload t) with
        | JNum e => if e <=? now then inr Expired else inl (tk_payload t)
        | _ => inr Malformed
        end
      else inr Malformed
  | Throw _ => inr Malformed
  end.

(** *** try / catch *)

Definition try_catch (body : M Outcome)
           (handler : string -> World -> Outcome * World)
  : World -> Outcome * World :=
  fun w =>
    match body w with
    | (Ret o, w') => (o, w')
    | (Throw error, w') => handler error w'
    end.

(** [res.status(500).json({ success: false, message: 'Server error' })] *)
Definition server_error : Response :=
  mkResponse 500 (envelope false "Server error").

(** [catch (error) { console.error(prefix, error); res.status(500)... }] *)
Definition catch_all (prefix : string) (error : string) (w : World)
  : Outcome * World :=
  (Respond server_error, console_error (prefix ++ error) w).

(** *** src/controllers/authController.js *)

Definition signup_body (req : Request) : M Outcome :=
  (let username := get "username" (body req) in
   let email := get "email" (body req) in
   let password := get "password" (body req) in
   if js_not username || js_not email || js_not password then
     ret (Respond (mkResponse 400 (envelope false "All fields are required")))
   else
     existingUser <- db_query (select_user_id_by_email email) ;;
     if (0 <? List.length existingUser)%nat then
       ret (Respond
              (mkResponse 400 (envelope false "Email already registered")))
     else
       hashedPassword <- bcrypt_hash_salted password 10 ;;
       result <- db_query (insert_user username email hashedPassword) ;;
       token <- generateToken
                  [("id", get "insertId" result); ("email", email)] ;;
       ret (Respond
              (mkResponse 201
                 (envelope true "User registered successfully" ++
                  [("token", FToken token)])%list)))%js.

Definition signup (req : Request) : World -> Outcome * World :=
  try_catch (signup_body req) (catch_all "").

Definition login_body (req : Request) : M Outcome :=
  (let email := get "email" (body req) in
   let password := get "password" (body req) in
   if js_not email || js_not password then
     ret (Respond
            (mkResponse 400
               (envelope false "Email and password are required")))
   else
     users <- db_query (select_user_by_email email) ;;
     match users with
     | [] =>
         ret (Respond (mkResponse 400 (envelope false "Invalid credentials")))
     | user :: _ =>
         isMatch <- lift (bcrypt_compare password (get "password" user)) ;;
         if negb isMatch then
           ret (Respond
                  (mkResponse 400 (envelope false "Invalid credentials")))
         else
           token <- generateToken user ;;
           ret (Respond
                  (mkResponse 200
                     (envelope true "Login successful" ++
                      [("token", FToken token)])%list))
     end)%js.

Definition login (req : Request) : World -> Outcome * World :=
  try_catch (login_body req) (catch_all "").

(** *** Authentication gate *)

Definition unauthorized : Response :=
  mkResponse 401 (envelope false unauthorized_message).

(** Modelled from the spec: src/middleware/verifyJWT.js is not among the
    sources.  The gate extracts the bearer token from the authorization
    header; absent or malformed, it fails with 401 without reaching
    downstream logic; otherwise it calls the verifier and, on success,
    attaches the decoded claims as the authenticated actor and proceeds.
    It never touches the store. *)
Definition verifyJWT (req : Request) (w : World) : Outcome * Request :=
  match authorization req with
  | Bearer t =>
      match verify t (clock w) with
      | inl claims => (Next, with_user claims req)
      | inr _ => (Respond unauthorized, req)
      end
  | NoHeader | BadHeader _ => (Respond unauthorized, req)
  end.

(** [req.user.id]; reading it with no actor attached is a TypeError. *)
Definition req_user_id (req : Request) : M JsVal :=
  match user req with
  | Some actor => ret (get "id" actor)
  | None =>
      throw "TypeError: Cannot read properties of undefined (reading 'id')"
  end.

(** *** src/middleware/checkOwnership.js *)

Definition checkOwnership_body (req : Request) : M Outcome :=
  (let articleId := params_id req in
   rows <- db_query (select_author_id articleId) ;;
   match rows with
   | [] => ret (Respond (mkResponse 404 (envelope false "Article not found")))
   | row0 :: _ =>
       actor_id <- req_user_id req ;;
       if strict_ne (get "author_id" row0) actor_id then
         ret (Respond
                (mkResponse 403
                   (envelope false "Forbidden: You are not the author")))
       else ret Next
   end)%js.

Definition checkOwnership (req : Request) : World -> Outcome * World :=
  try_catch (checkOwnership_body req) (catch_all "Ownership check error: ").

(** *** src/controllers/articleController.js *)

(** [content.substring(0, 150) + "..."]: the first 150 UTF-16 code units
    (a plain slice, not word-aware; a string is held as its code units,
    see [JsVal]) and the ellipsis; only a string has [substring], on
    anything else the call is a TypeError. *)
Definition summarize (content : JsVal) : M JsVal :=
  match content with
  | JStr s => ret (JStr (substring 0 150 s ++ "..."))
  | _ => throw "TypeError: content.substring is not a function"
  end.

Definition required : Response :=
  mkResponse 400 (envelope false "Title, content and category are required").

Definition createArticle_body (req : Request) : M Outcome :=
  (let title := get "title" (body req) in
   let content := get "content" (body req) in
   let category := get "category" (body req) in
   let tags := get "tags" (body req) in
   if js_not title || js_not content || js_not category then
     ret (Respond required)
   else
     summary <- summarize content ;;
     author <- req_user_id req ;;
     result <- db_query
                 (insert_article title content summary category tags author) ;;
     ret (Respond
            (mkResponse 201
               (envelope true "Article created successfully" ++
                [("articleId", FVal (get "insertId" result))])%list)))%js.

Definition createArticle (req : Request) : World -> Outcome * World :=
  try_catch (createArticle_body req) (catch_all "").

Definition getAllArticles_body (req : Request) : M Outcome :=
  (rows <- db_query select_articles ;;
   ret (Respond
          (mkResponse 200
             [("success", FVal (JBool true));
              ("count", FVal (JNum (Z.of_nat (List.length rows))));
              ("data", FRows rows)])))%js.

Definition getAllArticles (req : Request) : World -> Outcome * World :=
  try_catch (getAllArticles_body req) (catch_all "Error fetching articles: ").

Definition getArticleById_body (req : Request) : M Outcome :=
  (let articleId := params_id req in
   rows <- db_query (select_article_by_id articleId) ;;
   match rows with
   | [] => ret (Respond (mkResponse 404 (envelope false "Article not found")))
   | row0 :: _ =>
       ret (Respond
              (mkResponse 200
                 [("success", FVal (JBool true)); ("data", FRow row0)]))
   end)%js.

Definition getArticleById (req : Request) : World -> Outcome * World :=
  try_catch (getArticleById_body req) (catch_all "Error fetching article: ").

Definition updateArticle_body (req : Request) : M Outcome :=
  (let articleId := params_id req in
   let title := get "title" (body req) in
   let content := get "content" (body req) in
   let category := get "category" (body req) in
   let tags := get "tags" (body req) in
   if js_not title || js_not content || js_not category then
     ret (Respond required)
   else
     summary <- summarize content ;;
     db_query
       (update_article title content summary category tags articleId) ;;;
     ret (Respond
            (mkResponse 200
               (envelope true "Article updated successfully"))))%js.

Definition updateArticle (req : Request) : World -> Outcome * World :=
  try_catch (updateArticle_body req) (catch_all "Update error: ").

Definition deleteArticle_body (req : Request) : M Outcome :=
  (let articleId := params_id req in
   db_query (delete_article articleId) ;;;
   ret (Respond
          (mkResponse 200 (envelope true "Article deleted successfully"))))%js.

Definition deleteArticle (req : Request) : World -> Outcome * World :=
  try_catch (deleteArticle_body req) (catch_all "Delete error: ").

(** *** src/routes/articleRoutes.js *)

Inductive Method : Type := GET | POST | PUT | DELETE.

(** The two path patterns of the router: ["/"] and ["/:id"]. *)
Inductive Path : Type := Root | ById.

Inductive Layer : Type :=
| L_verifyJWT
| L_checkOwnership
| L_createArticle
| L_getAllArticles
| L_getArticleById
| L_updateArticle
| L_deleteArticle.

Definition articleRoutes : list (Method * Path * list Layer) :=
  [ (POST, Root, [L_verifyJWT; L_createArticle]);
    (GET, Root, [L_getAllArticles]);
    (GET, ById, [L_getArticleById]);
    (PUT, ById, [L_verifyJWT; L_checkOwnership; L_updateArticle]);
    (DELETE, ById, [L_verifyJWT; L_checkOwnership; L_deleteArticle]) ].

Definition method_eqb (a b : Method) : bool :=
  match a, b with
  | GET, GET | POST, POST | PUT, PUT | DELETE, DELETE => true
  | _, _ => false
  end.

Definition path_eqb (a b : Path) : bool :=
  match a, b with
  | Root, Root | ById, ById => true
  | _, _ => false
  end.


Definition layers_of (m : Method) (p : Path) : list Layer :=
  match find (fun r => method_eqb (fst (fst r)) m && path_eqb (snd (fst r)) p)
             articleRoutes with
  | Some r => snd r
  | None => []
  end.

(** A controller or the ownership check as a layer: the request goes on
    as it came. *)
Definition as_layer (h : Request -> World -> Outcome * World)
           (req : Request) (w : World) : Outcome * Request * World :=
  (fst (h req w), req, snd (h req w)).

Definition run_layer (l : Layer) (req : Request) (w : World)
  : Outcome * Request * World :=
  match l with
  | L_verifyJWT => (verifyJWT req w, w)
  | L_checkOwnership => as_layer checkOwnership req w
  | L_createArticle => as_layer createArticle req w
  | L_getAllArticles => as_layer getAllArticles req w
  | L_getArticleById => as_layer getArticleById req w
  | L_updateArticle => as_layer updateArticle req w
  | L_deleteArticle => as_layer deleteArticle req w
  end.

(** A layer that answers ends the chain; [next()] hands the request on. *)
Fixpoint run_chain (ls : list Layer) (req : Request) (w : World)
  : Outcome * World :=
  match ls with
  | [] => (Next, w)
  | l :: ls' =>
      match run_layer l req w with
      | (Respond r, _, w') => (Respond r, w')
      | (Next, req', w') => run_chain ls' req' w'
      end
  end.

Definition dispatch (m : Method) (p : Path) (req : Request) (w : World)
  : Outcome * World :=
  run_chain (layers_of m p) req w.


(** *** The operations, as one family *)

Inductive Operation : Type :=
| Op_signup
| Op_login
| Op_createArticle
| Op_getAllArticles
| Op_getArticleById
| Op_updateArticle
| Op_deleteArticle
| Op_checkOwnership.

(** The [try] block of an operation. *)
Definition body_of (op : Operation) : Request -> M Outcome :=
  match op with
  | Op_signup => signup_body
  | Op_login => login_body
  | Op_createArticle => createArticle_body
  | Op_getAllArticles => getAllArticles_body
  | Op_getArticleById => getArticleById_body
  | Op_updateArticle => updateArticle_body
  | Op_deleteArticle => deleteArticle_body
  | Op_checkOwnership => checkOwnership_body
  end.

Definition handler_of (op : Operation)
  : Request -> World -> Outcome * World :=
  match op with
  | Op_signup => signup
  | Op_login => login
  | Op_createArticle => createArticle
  | Op_getAllArticles => getAllArticles
  | Op_getArticleById => getArticleById
  | Op_updateArticle => updateArticle
  | Op_deleteArticle => deleteArticle
  | Op_checkOwnership => checkOwnership
  end.

(** *** Vocabulary of the properties *)

Definition status_of (o : Outcome) : option Z :=
  match o with
  | Respond r => Some (status r)
  | Next => None
  end.

Definition message_of (o : Outcome) : option string :=
  match o with
  | Respond r =>
      match field "message" (json r) with
      | Some (FVal (JStr m)) => Some m
      | _ => None
      end
  | Next => None
  end.

Definition not_found : Response :=
  mkResponse 404 (envelope false "Article not found").

Definition forbidden : Response :=
  mkResponse 403 (envelope false "Forbidden: You are not the author").

Definition invalid_credentials : Response :=
  mkResponse 400 (envelope false "Invalid credentials").

Definition already_registered : Response :=
  mkResponse 400 (envelope false "Email already registered").

(** The validations of signup and login, as the handlers read them. *)
Definition lacks_signup_fields (req : Request) : bool :=
  js_not (get "username" (body req)) ||
  js_not (get "email" (body req)) ||
  js_not (get "password" (body req)).

Definition lacks_credentials (req : Request) : bool :=
  js_not (get "email" (body req)) || js_not (get "password" (body req)).

Definition updated : Response :=
  mkResponse 200 (envelope true "Article updated successfully").

Definition deleted : Response :=
  mkResponse 200 (envelope true "Article deleted successfully").

(** The author row of an article, as the join finds it. *)
Definition wrote (a : Article) (u : User) : bool :=
  sql_eq (a_author_id a) (JNum (u_id u)).



(** The three required fields of an article request, as the validation
    reads them: one of them is missing or empty. *)
Definition lacks_required (req : Request) : bool :=
  js_not (get "title" (body req)) ||
  js_not (get "content" (body req)) ||
  js_not (get "category" (body req)).

(** What an update may do to one article: identity, author and creation
    time stay, and an article the id does not select stays whole. *)
Definition kept (articleId : JsVal) (a a' : Article) : Prop :=
  a_id a' = a_id a /\
  a_author_id a' = a_author_id a /\
  a_created_at a' = a_created_at a /\
  (id_is articleId a = false -> a' = a).

(** The shape of every error response: [{success: false, message}] and
    nothing else. *)
Definition error_shaped (o : Outcome) : Prop :=
  match o with
  | Respond r => 400 <= status r -> exists m, json r = envelope false m
  | Next => True
  end.

(** A computation whose every answer is well shaped. *)
Definition shaped (m : M Outcome) : Prop :=
  forall w o w', m w = (Ret o, w') -> error_shaped o.


(** How many store calls a run from [w] to [w'] used up. *)
Definition calls_made (w w' : World) : nat :=
  (List.length (faults w) - List.length (faults w'))%nat.

(** A run from [w] to [w'] made [k] store calls and none of them failed. *)
Definition quiet (k : nat) (w w' : World) : Prop :=
  faults w' = skipn k (faults w) /\
  forall i, (i < k)%nat -> fault_at i w = None.

(** A computation that returns only when no store call of it failed. *)
Definition clean {A : Type} (m : M A) : Prop :=
  forall w a w', m w = (Ret a, w') -> exists k, quiet k w w'.

(** Whether a message names the email field. *)
Definition names_email (m : string) : bool :=
  match index 0 "mail" m with
  | Some _ => true
  | None => false
  end.

(** The conflict branch of signup as the specification words it: 400, no
    user inserted, and a message that does not tell that the email was the
    cause. *)
Definition conflict_as_specified (req : Request) (w : World) : Prop :=
  status_of (fst (signup req w)) = Some 400 /\
  users (snd (signup req w)) = users w /\
  exists m, message_of (fst (signup req w)) = Some m /\
            names_email m = false.

(** *** Reference collaborators and stores

    Executable stand-ins for the server's comparison, the hasher and the
    signature, and a few stores and requests to run the handlers on. *)

Definition decimal (n : Z) : string := NilZero.string_of_int (Z.to_int n).

Definition ref_sql_eq (a b : JsVal) : bool :=
  match a, b with
  | JNum x, JNum y => x =? y
  | JStr x, JStr y => (x =? y)%string
  | JNum x, JStr y => (decimal x =? y)%string
  | JStr x, JNum y => (x =? decimal y)%string
  | _, _ => false
  end.

Definition ends_with (suffix s : string) : bool :=
  (substring (String.length s - String.length suffix)
             (String.length suffix) s =? suffix)%string.

Definition ref_bcrypt_hash (salt : Z) (data : JsVal) (rounds : Z)
  : Res JsVal :=
  match data with
  | JStr s =>
      Ret (JStr ("$2b$" ++ decimal rounds ++ "$" ++ decimal salt ++ "$" ++ s))
  | _ => Throw "Error: data must be a string or Buffer"
  end.

Definition ref_bcrypt_compare (data hash : JsVal) : Res bool :=
  match data, hash with
  | JStr s, JStr h => Ret (ends_with ("$" ++ s) h)
  | _, _ => Throw "Error: data and hash must be strings"
  end.

Definition show (v : JsVal) : string :=
  match v with
  | JUndefined => "undefined"
  | JNull => "null"
  | JBool true => "true"
  | JBool false => "false"
  | JNum n => decimal n
  | JStr s => s
  end.

Definition ref_hmac (key : string) (claims : Obj) : Res string :=
  match key with
  | EmptyString => Throw "Error: secretOrPrivateKey must have a value"
  | _ =>
      Ret (key ++ "|" ++
           concat ";" (map (fun kv => fst kv ++ "=" ++ show (snd kv)) claims))
  end.

Definition ref_secret : string := "s3cret".
Definition ref_expires_in : Z := 604800.

Definition al : User :=
  mkUser 5 (JStr "al") (JStr "a@x.com") (JStr "$2b$10$3$pw1") 900.

Definition bo : User :=
  mkUser 6 (JStr "bo") (JStr "b@x.com") (JStr "$2b$10$4$pw2") 950.

Definition post1 : Article :=
  mkArticle 1 (JStr "Hello") (JStr "First post") (JStr "First post...")
            (JStr "news") (JStr "intro") (JNum 5) 960.

Definition w_fresh : World := mkWorld [] [] 1 1 1000 7 [] [].

Definition w_blog : World := mkWorld [al; bo] [post1] 7 2 1000 7 [] [].

Definition w_down : World :=
  mkWorld [al; bo] [post1] 7 2 1000 7 [Some "Error: connect ECONNREFUSED"] [].

Definition claims_of (u : User) : Obj :=
  [("id", JNum (u_id u)); ("email", u_email u)].

Definition req_signup_al : Request :=
  mkRequest JUndefined
            [("username", JStr "al"); ("email", JStr "a@x.com");
             ("password", JStr "pw1")]
            NoHeader None.

Definition req_login (email password : string) : Request :=
  mkRequest JUndefined
            [("email", JStr email); ("password", JStr password)]
            NoHeader None.

Definition req_article (id : string) (actor : option Obj) (fields : Obj)
  : Request :=
  mkRequest (JStr id) fields NoHeader actor.

Definition no_tags : Obj :=
  [("title", JStr "T"); ("content", JStr "C"); ("category", JStr "c")].



Definition al_on_post1 : Request :=
  req_article "1" (Some (claims_of al)) no_tags.

Definition bo_on_post1 : Request :=
  req_article "1" (Some (claims_of bo)) no_tags.

(** An actor whose decoded id is the string ["5"], not the number 5. *)
Definition five_as_string_on_post1 : Request :=
  req_article "1" (Some [("id", JStr "5"); ("email", JStr "a@x.com")]) no_tags.

Definition anyone_on_post9 : Request := req_article "9" None no_tags.

Definition anyone_on_post1 : Request := req_article "1" None no_tags.

Definition req_signup_numeric_password : Request :=
  mkRequest JUndefined
            [("username", JStr "cy"); ("email", JStr "c@x.com");
             ("password", JNum 123)]
            NoHeader None.

Definition al_signature : string :=
  "s3cret|id=5;email=a@x.com;issuedAt=1000;expiresAt=605800".

(** The tokens a login at time 1000 hands to al and to bo. *)
Definition al_token : Token :=
  mkToken [("id", JNum 5); ("email", JStr "a@x.com");
           ("issuedAt", JNum 1000); ("expiresAt", JNum 605800)]
          al_signature.

Definition bo_token : Token :=
  mkToken [("id", JNum 6); ("email", JStr "b@x.com");
           ("issuedAt", JNum 1000); ("expiresAt", JNum 605800)]
          "s3cret|id=6;email=b@x.com;issuedAt=1000;expiresAt=605800".

Definition put_post1 (bearer : AuthHeader) : Request :=
  mkRequest (JStr "1") no_tags bearer None.

(** *** Further vocabulary: effects on the tables and on the console *)

(** What each handler puts before the error when it logs it. *)
Definition log_prefix (op : Operation) : string :=
  match op with
  | Op_signup | Op_login | Op_createArticle => ""
  | Op_getAllArticles => "Error fetching articles: "
  | Op_getArticleById => "Error fetching article: "
  | Op_updateArticle => "Update error: "
  | Op_deleteArticle => "Delete error: "
  | Op_checkOwnership => "Ownership check error: "
  end.

Definition same_users (w w' : World) : Prop :=
  users w' = users w /\ users_auto w' = users_auto w.

Definition same_articles (w w' : World) : Prop :=
  articles w' = articles w /\ articles_auto w' = articles_auto w.

(** No stored user's email is matched by the email of a user stored
    before it: the lookup by a stored email stops at its own row. *)
Fixpoint emails_distinct (l : list User) : bool :=
  match l with
  | [] => true
  | u :: l' =>
      forallb (fun v => negb (sql_eq (u_email u) (u_email v))) l' &&
      emails_distinct l'
  end.

(** Newest first. *)
Definition newest_first (l : list (Article * User)) : Prop :=
  StronglySorted
    (fun x y => a_created_at (fst y) <= a_created_at (fst x)) l.

(** A row of the list: the article's columns and the author's username. *)
Definition article_with_username (au : Article * User) : Obj :=
  (article_row (fst au) ++ [("username", u_username (snd au))])%list.


(** *** Further stores and requests *)

Definition numeric_content : Obj :=
  [("title", JStr "T"); ("content", JNum 5); ("category", JStr "c")].

Definition al_sends_number : Request :=
  req_article "1" (Some (claims_of al)) numeric_content.

Definition post2 : Article :=
  mkArticle 2 (JStr "Bye") (JStr "Second post") (JStr "Second post...")
            (JStr "news") JNull (JNum 6) 980.

(** post1 is of user 5, who has no row here. *)
Definition w_orphan : World := mkWorld [bo] [post1; post2] 7 3 1000 7 [] [].

Definition w_two : World := mkWorld [al; bo] [post1; post2] 7 3 1000 7 [] [].

Definition req_signup_cy : Request :=
  mkRequest JUndefined
            [("username", JStr "cy"); ("email", JStr "c@x.com");
             ("password", JStr "pw3")]
            NoHeader None.


Definition req_missing_password : Request :=
  mkRequest JUndefined [("username", JStr "cy"); ("email", JStr "c@x.com")]
            NoHeader None.

Definition al_on_post2 : Request :=
  req_article "2" (Some (claims_of al)) no_tags.

(** ** Properties *)

(** *** Values *)

Lemma strict_eq_iff (a b : JsVal) : strict_eq a b = true <-> a = b.
Proof.
  destruct a, b; simpl; split; intros H;
    try discriminate; try reflexivity.
  - apply Bool.eqb_prop in H. now subst.
  - injection H as ->. apply Bool.eqb_reflx.
  - apply Z.eqb_eq in H. now subst.
  - injection H as ->. apply Z.eqb_refl.
  - apply String.eqb_eq in H. now subst.
  - injection H as ->. apply String.eqb_refl.
Qed.

Lemma strict_ne_false_iff (a b : JsVal) : strict_ne a b = false <-> a = b.
Proof.
  unfold strict_ne. rewrite negb_false_iff. apply strict_eq_iff.
Qed.

Lemma strict_ne_true_iff (a b : JsVal) : strict_ne a b = true <-> a <> b.
Proof.
  unfold strict_ne. rewrite negb_true_iff, <- not_true_iff_false.
  now rewrite strict_eq_iff.
Qed.

Lemma strict_eq_types (a b : JsVal) :
  type_of a <> type_of b -> strict_eq a b = false.
Proof.
  intros H. destruct (strict_eq a b) eqn:E; [|reflexivity].
  apply strict_eq_iff in E. now subst.
Qed.


(** *** Rows a statement selects *)

Lemma filter_find_none {A : Type} (f : A -> bool) (l : list A) :
  find f l = None -> filter f l = [].
Proof.
  induction l as [|x l IH]; simpl; [easy|].
  destruct (f x); [discriminate | exact IH].
Qed.

Lemma filter_find_some {A : Type} (f : A -> bool) (l : list A) (x : A) :
  find f l = Some x -> exists rest, filter f l = x :: rest.
Proof.
  induction l as [|y l IH]; simpl; [discriminate|].
  destruct (f y).
  - intros [= ->]. eauto.
  - exact IH.
Qed.

Lemma find_none_iff {A : Type} (f : A -> bool) (l : list A) :
  find f l = None <-> forall x, In x l -> f x = false.
Proof.
  split.
  - intros H x Hx. exact (find_none f l H x Hx).
  - induction l as [|y l IH]; simpl; [easy|]. intros H.
    rewrite (H y (or_introl eq_refl)). apply IH.
    intros x Hx. apply H. now right.
Qed.

(** *** The store call *)

Lemma db_query_ok {A : Type} (stmt : World -> A * World) (w : World) :
  fault_at 0 w = None ->
  db_query stmt w = (Ret (fst (stmt (pop_fault w))), snd (stmt (pop_fault w))).
Proof. unfold db_query. now intros ->. Qed.

Lemma db_query_fails {A : Type} (stmt : World -> A * World) (w : World)
      (e : string) :
  fault_at 0 w = Some e -> db_query stmt w = (Throw e, pop_fault w).
Proof. unfold db_query. now intros ->. Qed.

Lemma fault_at_pop (n : nat) (w : World) :
  fault_at n (pop_fault w) = fault_at (S n) w.
Proof.
  unfold fault_at, pop_fault. simpl. destruct (faults w); simpl; [|reflexivity].
  now destruct n.
Qed.

(** *** Ownership gate *)

Lemma checkOwnership_absent (req : Request) (w : World) :
  fault_at 0 w = None ->
  find (id_is (params_id req)) (articles w) = None ->
  checkOwnership req w = (Respond not_found, pop_fault w).
Proof.
  intros Hf Hnone.
  unfold checkOwnership, try_catch, checkOwnership_body, bind.
  rewrite (db_query_ok _ _ Hf). simpl.
  now rewrite (filter_find_none _ _ Hnone).
Qed.

Lemma checkOwnership_present (req : Request) (w : World) (actor : Obj)
      (a : Article) :
  fault_at 0 w = None ->
  user req = Some actor ->
  find (id_is (params_id req)) (articles w) = Some a ->
  checkOwnership req w =
    (if strict_ne (a_author_id a) (get "id" actor)
     then Respond forbidden else Next,
     pop_fault w).
Proof.
  intros Hf Hu Hsome.
  unfold checkOwnership, try_catch, checkOwnership_body, bind.
  rewrite (db_query_ok _ _ Hf). simpl.
  destruct (filter_find_some _ _ _ Hsome) as [rest ->]. simpl.
  unfold req_user_id. rewrite Hu. unfold ret.
  now destruct (strict_ne (a_author_id a) (get "id" actor)).
Qed.

(** C1.  When the store answers the gate's lookup: if no article has the
    requested id the gate answers 404 "Article not found", and it does so
    whatever the request carries as actor, even none, so no ownership
    comparison has been made; if the article the id selects has an author
    id different from the actor's id the gate answers 403 (hence not
    404); if the two ids are equal the gate calls [next()]. *)
Theorem checkOwnership_decides (req : Request) (w : World) (actor : Obj) :
  fault_at 0 w = None ->
  user req = Some actor ->
  match find (id_is (params_id req)) (articles w) with
  | None =>
      forall someone : option Obj,
        fst (checkOwnership
               (mkRequest (params_id req) (body req) (authorization req)
                          someone) w)
        = Respond not_found
  | Some a =>
      (a_author_id a <> get "id" actor ->
       fst (checkOwnership req w) = Respond forbidden /\
       status_of (fst (checkOwnership req w)) <> Some 404) /\
      (a_author_id a = get "id" actor ->
       fst (checkOwnership req w) = Next)
  end.
Proof.
  intros Hf Hu.
  destruct (find (id_is (params_id req)) (articles w)) as [a|] eqn:Hfind.
  - rewrite (checkOwnership_present req w actor a Hf Hu Hfind). simpl.
    split.
    + intros Hne. apply strict_ne_true_iff in Hne. rewrite Hne.
      split; [reflexivity | discriminate].
    + intros Heq. apply strict_ne_false_iff in Heq. now rewrite Heq.
  - intros someone.
    now rewrite checkOwnership_absent.
Qed.

(** C2.  The gate compares the stored author id with the actor's decoded
    id by strict equality: it proceeds exactly when the two are the same
    value of the same type, and whenever their types differ (a number
    against a string, either way round, in particular) it answers 403. *)
Theorem checkOwnership_exact (req : Request) (w : World) (actor : Obj)
        (a : Article) :
  fault_at 0 w = None ->
  user req = Some actor ->
  find (id_is (params_id req)) (articles w) = Some a ->
  (fst (checkOwnership req w) = Next <-> a_author_id a = get "id" actor) /\
  (type_of (a_author_id a) <> type_of (get "id" actor) ->
   fst (checkOwnership req w) = Respond forbidden) /\
  (forall n s,
      (a_author_id a = JNum n /\ get "id" actor = JStr s) \/
      (a_author_id a = JStr s /\ get "id" actor = JNum n) ->
      fst (checkOwnership req w) = Respond forbidden).
Proof.
  intros Hf Hu Hfind.
  rewrite (checkOwnership_present req w actor a Hf Hu Hfind). simpl.
  assert (Htypes : type_of (a_author_id a) <> type_of (get "id" actor) ->
                   (if strict_ne (a_author_id a) (get "id" actor)
                    then Respond forbidden else Next) = Respond forbidden).
  { intros Ht. unfold strict_ne. now rewrite (strict_eq_types _ _ Ht). }
  split; [|split].
  - destruct (strict_ne (a_author_id a) (get "id" actor)) eqn:E.
    + apply strict_ne_true_iff in E. split; [discriminate | contradiction].
    + apply strict_ne_false_iff in E. now split.
  - exact Htypes.
  - intros n s [[Ha Hb]|[Ha Hb]]; apply Htypes; rewrite Ha, Hb; discriminate.
Qed.

(** *** Login *)

Lemma login_unknown (req : Request) (w : World) :
  lacks_credentials req = false ->
  fault_at 0 w = None ->
  find (email_is (get "email" (body req))) (users w) = None ->
  login req w = (Respond invalid_credentials, pop_fault w).
Proof.
  intros Hv Hf Hnone. unfold lacks_credentials in Hv.
  unfold login, try_catch, login_body, bind. rewrite Hv.
  rewrite (db_query_ok _ _ Hf). simpl.
  now rewrite (filter_find_none _ _ Hnone).
Qed.

Lemma login_known (req : Request) (w : World) (u : User) :
  lacks_credentials req = false ->
  fault_at 0 w = None ->
  find (email_is (get "email" (body req))) (users w) = Some u ->
  login req w =
    match bcrypt_compare (get "password" (body req)) (u_password u) with
    | Ret true =>
        match hmac JWT_SECRET (token_claims (user_row u) (clock w)) with
        | Ret s =>
            (Respond
               (mkResponse 200
                  (envelope true "Login successful" ++
                   [("token",
                     FToken
                       (mkToken (token_claims (user_row u) (clock w))
                                s))])%list),
             pop_fault w)
        | Throw e => catch_all "" e (pop_fault w)
        end
    | Ret false => (Respond invalid_credentials, pop_fault w)
    | Throw e => catch_all "" e (pop_fault w)
    end.
Proof.
  intros Hv Hf Hsome. unfold lacks_credentials in Hv.
  unfold login, try_catch, login_body, bind. rewrite Hv.
  rewrite (db_query_ok _ _ Hf). simpl.
  destruct (filter_find_some _ _ _ Hsome) as [rest ->]. simpl.
  unfold lift.
  destruct (bcrypt_compare (get "password" (body req)) (u_password u))
    as [[|]|e]; simpl; try reflexivity.
  unfold generateToken. simpl.
  now destruct (hmac JWT_SECRET (token_claims (user_row u) (clock w))).
Qed.

(** C3.  A login whose lookup finds no user for the email and a login
    whose lookup finds a user whose stored hash does not verify against
    the password get one and the same response: status 400 with the body
    [{success: false, message: "Invalid credentials"}]. *)
Theorem login_failures_coincide
        (req1 req2 : Request) (w1 w2 : World) (u : User) :
  lacks_credentials req1 = false ->
  lacks_credentials req2 = false ->
  fault_at 0 w1 = None ->
  fault_at 0 w2 = None ->
  find (email_is (get "email" (body req1))) (users w1) = None ->
  find (email_is (get "email" (body req2))) (users w2) = Some u ->
  bcrypt_compare (get "password" (body req2)) (u_password u) = Ret false ->
  fst (login req1 w1) = fst (login req2 w2) /\
  fst (login req1 w1) = Respond invalid_credentials /\
  status_of (fst (login req2 w2)) = Some 400 /\
  message_of (fst (login req2 w2)) = Some "Invalid credentials".
Proof.
  intros Hv1 Hv2 Hf1 Hf2 Hnone Hsome Hcmp.
  rewrite (login_unknown req1 w1 Hv1 Hf1 Hnone).
  rewrite (login_known req2 w2 u Hv2 Hf2 Hsome), Hcmp.
  now repeat split.
Qed.

(** C5 (with the token issuer and verifier taken from the specification).
    For a stored user who is the one user of their email, login with that
    email and a password that verifies against the stored hash answers 200
    with a token; verified before its expiry, the token yields the claim
    set with exactly the keys id, email, issuedAt and expiresAt, whose id
    and email are the user's, and with no password entry. *)
Theorem login_issues_claims
        (req : Request) (w : World) (u : User) (s : string) (now : Z) :
  filter (email_is (u_email u)) (users w) = [u] ->
  get "email" (body req) = u_email u ->
  lacks_credentials req = false ->
  fault_at 0 w = None ->
  bcrypt_compare (get "password" (body req)) (u_password u) = Ret true ->
  hmac JWT_SECRET (token_claims (user_row u) (clock w)) = Ret s ->
  now < clock w + JWT_EXPIRES_IN ->
  exists (t : Token) (claims : Obj),
    fst (login req w) =
      Respond (mkResponse 200
                 (envelope true "Login successful" ++
                  [("token", FToken t)])%list) /\
    verify t now = inl claims /\
    keys claims = ["id"; "email"; "issuedAt"; "expiresAt"] /\
    get "id" claims = JNum (u_id u) /\
    get "email" claims = u_email u /\
    has_key "password" claims = false.
Proof.
  intros Hrow Hemail Hv Hf Hcmp Hsig Hnow.
  assert (Hfind : find (email_is (get "email" (body req))) (users w) = Some u).
  { rewrite Hemail. clear - Hrow.
    induction (users w) as [|v l IH]; simpl in *; [discriminate|].
    destruct (email_is (u_email u) v).
    - now injection Hrow as -> _.
    - now apply IH. }
  exists (mkToken (token_claims (user_row u) (clock w)) s),
         (token_claims (user_row u) (clock w)).
  rewrite (login_known req w u Hv Hf Hfind), Hcmp, Hsig.
  split; [reflexivity|].
  split.
  - unfold verify. simpl tk_payload. rewrite Hsig. simpl tk_sig.
    rewrite String.eqb_refl. simpl.
    destruct (clock w + JWT_EXPIRES_IN <=? now) eqn:E; [|reflexivity].
    apply Z.leb_le in E. lia.
  - now repeat split.
Qed.

(** *** Signup *)

Lemma filter_hit {A : Type} (f : A -> bool) (l : list A) (x : A) :
  In x l -> f x = true -> exists y rest, filter f l = y :: rest.
Proof.
  intros Hin Hx.
  assert (H : In x (filter f l)) by (apply filter_In; now split).
  destruct (filter f l) as [|y rest]; [contradiction | eauto].
Qed.

(** C4, as the code has it.  A signup whose email selects a stored user
    answers 400 with the message "Email already registered", a message
    that names the email as the cause, and leaves the store as it was:
    only the schedule of the store call has advanced, no user is
    inserted. *)
Theorem signup_conflict (req : Request) (w : World) (u : User) :
  lacks_signup_fields req = false ->
  fault_at 0 w = None ->
  In u (users w) ->
  email_is (get "email" (body req)) u = true ->
  fst (signup req w) = Respond already_registered /\
  message_of (fst (signup req w)) = Some "Email already registered" /\
  names_email "Email already registered" = true /\
  snd (signup req w) = pop_fault w /\
  users (snd (signup req w)) = users w /\
  users_auto (snd (signup req w)) = users_auto w /\
  articles (snd (signup req w)) = articles w.
Proof.
  intros Hv Hf Hin Hu. unfold lacks_signup_fields in Hv.
  assert (E : signup req w = (Respond already_registered, pop_fault w)).
  { unfold signup, try_catch, signup_body, bind. rewrite Hv.
    rewrite (db_query_ok _ _ Hf). simpl.
    destruct (filter_hit _ _ _ Hin Hu) as (y & rest & ->). reflexivity. }
  rewrite E. now repeat split.
Qed.

(** *** Update leaves authorship alone *)

Lemma kept_same (articleId : JsVal) (l : list Article) :
  Forall2 (kept articleId) l l.
Proof. induction l; constructor; [now repeat split | assumption]. Qed.

Lemma kept_update (articleId t c s g tg : JsVal) (l : list Article) :
  Forall2 (kept articleId) l
          (map (fun a => if id_is articleId a
                         then set_content t c s g tg a else a) l).
Proof.
  induction l as [|a l IH]; simpl; constructor; [|exact IH].
  destruct (id_is articleId a) eqn:E; repeat split; try reflexivity.
  intros H. rewrite E in H. discriminate.
Qed.

Lemma updateArticle_cases (req : Request) (w : World) :
  articles (snd (updateArticle req w)) = articles w \/
  exists t c s g tg,
    articles (snd (updateArticle req w)) =
    map (fun a => if id_is (params_id req) a
                  then set_content t c s g tg a else a) (articles w).
Proof.
  unfold updateArticle, try_catch, updateArticle_body, bind.
  destruct (_ || _); [now left|].
  destruct (get "content" (body req)); simpl; try now left.
  unfold db_query. destruct (fault_at 0 w); simpl; [now left|].
  right. now repeat eexists.
Qed.

Lemma createArticle_created (req : Request) (w : World) (r : Response) :
  fst (createArticle req w) = Respond r ->
  status r = 201 ->
  exists (actor : Obj) (a : Article),
    user req = Some actor /\
    articles (snd (createArticle req w)) = (articles w ++ [a])%list /\
    a_author_id a = get "id" actor.
Proof.
  unfold createArticle, try_catch, createArticle_body, bind.
  destruct (_ || _); [now intros [= <-]|].
  destruct (get "content" (body req)); simpl; try now intros [= <-].
  unfold req_user_id. destruct (user req) as [actor|]; simpl;
    [|now intros [= <-]].
  unfold db_query. destruct (fault_at 0 w); simpl; [now intros [= <-]|].
  intros _ _. now repeat eexists.
Qed.

(** C6.  Whatever the request and the store, after [updateArticle] the
    articles are the same rows in the same order, each with its id, its
    author id and its creation time as before, and every article the
    request's id does not select is untouched: an update writes title,
    content, summary, category and tags of the targeted article and
    nothing else; users are untouched too.  The author id itself is
    written by [createArticle], from the id of the request's actor. *)
Theorem update_keeps_author (req : Request) (w : World) :
  Forall2 (kept (params_id req))
          (articles w) (articles (snd (updateArticle req w))) /\
  users (snd (updateArticle req w)) = users w /\
  (forall creation r,
      fst (createArticle creation w) = Respond r ->
      status r = 201 ->
      exists (actor : Obj) (a : Article),
        user creation = Some actor /\
        articles (snd (createArticle creation w))
        = (articles w ++ [a])%list /\
        a_author_id a = get "id" actor /\
        Forall2 (kept (params_id req))
                (articles (snd (createArticle creation w)))
                (articles (snd (updateArticle req
                                  (snd (createArticle creation w)))))).
Proof.
  assert (frame : forall w0,
             Forall2 (kept (params_id req))
                     (articles w0) (articles (snd (updateArticle req w0)))).
  { intros w0. destruct (updateArticle_cases req w0)
      as [->|(t & c & s & g & tg & ->)];
      [apply kept_same | apply kept_update]. }
  split; [apply frame|]. split.
  - unfold updateArticle, try_catch, updateArticle_body, bind.
    destruct (_ || _); [reflexivity|].
    destruct (get "content" (body req)); simpl; try reflexivity.
    unfold db_query. now destruct (fault_at 0 w).
  - intros creation r Hr H201.
    destruct (createArticle_created creation w r Hr H201)
      as (actor & a & Hu & Ha & Hid).
    exists actor, a. repeat split; try assumption. apply frame.
Qed.

(** *** Failures inside the try block *)

Lemma quiet_none (w : World) : quiet 0 w w.
Proof. split; [reflexivity | intros i Hi; lia]. Qed.

Lemma quiet_seq (k1 k2 : nat) (w w' w'' : World) :
  quiet k1 w w' -> quiet k2 w' w'' -> quiet (k2 + k1) w w''.
Proof.
  intros [E1 N1] [E2 N2]. split.
  - now rewrite E2, E1, skipn_skipn.
  - intros i Hi. destruct (Nat.lt_ge_cases i k1) as [Hlt|Hge].
    + now apply N1.
    + specialize (N2 (i - k1)%nat ltac:(lia)).
      unfold fault_at in *. rewrite E1, nth_skipn in N2.
      now replace (k1 + (i - k1))%nat with i in N2 by lia.
Qed.

Lemma clean_ret {A : Type} (a : A) : clean (ret a).
Proof. intros w a' w' [= _ <-]. exists 0%nat. apply quiet_none. Qed.

Lemma clean_throw {A : Type} (e : string) : clean (@throw A e).
Proof. intros w a w' H. discriminate. Qed.

Lemma clean_lift {A : Type} (r : Res A) : clean (lift r).
Proof. intros w a w' [= _ <-]. exists 0%nat. apply quiet_none. Qed.

Lemma clean_bind {A B : Type} (m : M A) (k : A -> M B) :
  clean m -> (forall a, clean (k a)) -> clean (bind m k).
Proof.
  intros Hm Hk w b w''. unfold bind.
  destruct (m w) as [[a|e] w'] eqn:E; [|discriminate].
  intros Hb. destruct (Hm _ _ _ E) as [k1 Q1].
  destruct (Hk a _ _ _ Hb) as [k2 Q2].
  exists (k2 + k1)%nat. exact (quiet_seq _ _ _ _ _ Q1 Q2).
Qed.

Lemma clean_db_query {A : Type} (stmt : World -> A * World) :
  (forall w, faults (snd (stmt w)) = faults w) -> clean (db_query stmt).
Proof.
  intros Hs w a w'. unfold db_query.
  destruct (fault_at 0 w) eqn:E; [discriminate|]. intros [= _ <-].
  exists 1%nat. split.
  - rewrite Hs. simpl. now destruct (faults w).
  - intros i Hi. now replace i with 0%nat by lia.
Qed.

Lemma clean_hash (data : JsVal) (rounds : Z) :
  clean (bcrypt_hash_salted data rounds).
Proof.
  intros w a w'. unfold bcrypt_hash_salted. intros [= _ <-].
  exists 0%nat. split; [reflexivity | intros i Hi; lia].
Qed.

Lemma clean_token (subject : Obj) : clean (generateToken subject).
Proof.
  intros w a w'. unfold generateToken.
  destruct (hmac _ _); [|discriminate]. intros [= _ <-].
  exists 0%nat. apply quiet_none.
Qed.

Lemma clean_summarize (content : JsVal) : clean (summarize content).
Proof. destruct content; first [apply clean_ret | apply clean_throw]. Qed.

Lemma clean_user_id (req : Request) : clean (req_user_id req).
Proof.
  unfold req_user_id. destruct (user req);
    first [apply clean_ret | apply clean_throw].
Qed.

Create HintDb clean.
#[local] Hint Resolve clean_ret clean_throw clean_lift clean_hash clean_token
  clean_summarize clean_user_id : clean.

Ltac clean_step :=
  first
    [ apply clean_bind; [|intros ?]
    | apply clean_db_query; intros ?; reflexivity
    | solve [auto with clean]
    | match goal with
      | |- clean (if ?b then _ else _) => destruct b
      | |- clean (match ?x with _ => _ end) => destruct x
      end ].

Lemma clean_body (op : Operation) (req : Request) : clean (body_of op req).
Proof.
  destruct op; simpl;
    unfold signup_body, login_body, createArticle_body, getAllArticles_body,
      getArticleById_body, updateArticle_body, deleteArticle_body,
      checkOwnership_body;
    cbv zeta; repeat clean_step.
Qed.

Lemma handler_is_try_catch (op : Operation) (req : Request) :
  exists prefix,
    handler_of op req = try_catch (body_of op req) (catch_all prefix).
Proof. destruct op; eexists; reflexivity. Qed.

Lemma thrown_is_server_error (op : Operation) (req : Request) (w w' : World)
      (e : string) :
  body_of op req w = (Throw e, w') ->
  handler_of op req w = (Respond server_error, snd (handler_of op req w)) /\
  exists line,
    console (snd (handler_of op req w)) = (console w' ++ [line])%list.
Proof.
  intros H. destruct (handler_is_try_catch op req) as [prefix ->].
  unfold try_catch. rewrite H. simpl. eauto.
Qed.

Lemma store_error_is_server_error
      (op : Operation) (req : Request) (w : World) (k : nat) (e : string) :
  (k < calls_made w (snd (handler_of op req w)))%nat ->
  fault_at k w = Some e ->
  fst (handler_of op req w) = Respond server_error.
Proof.
  destruct (handler_is_try_catch op req) as [prefix ->].
  unfold try_catch.
  destruct (body_of op req w) as [[o|err] w'] eqn:E; simpl; [|reflexivity].
  destruct (clean_body op req _ _ _ E) as [n [Hf Hn]].
  unfold calls_made. rewrite Hf, length_skipn. intros Hk He.
  rewrite Hn in He by lia. discriminate.
Qed.

Lemma shaped_ret (o : Outcome) : error_shaped o -> shaped (ret o).
Proof. intros H w o' w' [= <- _]. exact H. Qed.

Lemma shaped_bind {A : Type} (m : M A) (k : A -> M Outcome) :
  (forall a, shaped (k a)) -> shaped (bind m k).
Proof.
  intros Hk w o w''. unfold bind.
  destruct (m w) as [[a|e] w']; [|discriminate]. apply Hk.
Qed.

Lemma error_shaped_failure (code : Z) (m : string) :
  error_shaped (Respond (mkResponse code (envelope false m))).
Proof. intros _. now exists m. Qed.

Lemma error_shaped_success (code : Z) (o : list (string * Field)) :
  code < 400 -> error_shaped (Respond (mkResponse code o)).
Proof. intros H H'. simpl in H'. lia. Qed.

Ltac shaped_step :=
  first
    [ apply shaped_bind; intros ?
    | apply shaped_ret;
      first [ apply error_shaped_failure
            | apply error_shaped_success; reflexivity
            | exact I ]
    | match goal with
      | |- shaped (if ?b then _ else _) => destruct b
      | |- shaped (match ?x with _ => _ end) => destruct x
      end ].

Lemma shaped_body (op : Operation) (req : Request) : shaped (body_of op req).
Proof.
  destruct op; simpl;
    unfold signup_body, login_body, createArticle_body, getAllArticles_body,
      getArticleById_body, updateArticle_body, deleteArticle_body,
      checkOwnership_body, required;
    cbv zeta; repeat shaped_step.
Qed.

Lemma handler_shaped (op : Operation) (req : Request) (w : World) :
  error_shaped (fst (handler_of op req w)).
Proof.
  destruct (handler_is_try_catch op req) as [prefix ->]. unfold try_catch.
  destruct (body_of op req w) as [[o|err] w'] eqn:E; simpl.
  - exact (shaped_body op req _ _ _ E).
  - apply error_shaped_failure.
Qed.

(** The course of a signup that passes validation and finds the email
    free. *)
Lemma signup_fresh (req : Request) (w : World) :
  lacks_signup_fields req = false ->
  fault_at 0 w = None ->
  find (email_is (get "email" (body req))) (users w) = None ->
  fst (signup req w) =
    match bcrypt_hash (entropy w) (get "password" (body req)) 10 with
    | Throw _ => Respond server_error
    | Ret _ =>
        match fault_at 1 w with
        | Some _ => Respond server_error
        | None =>
            match hmac JWT_SECRET
                       (token_claims [("id", JNum (users_auto w));
                                      ("email", get "email" (body req))]
                                     (clock w)) with
            | Throw _ => Respond server_error
            | Ret s =>
                Respond
                  (mkResponse 201
                     (envelope true "User registered successfully" ++
                      [("token",
                        FToken
                          (mkToken
                             (token_claims
                                [("id", JNum (users_auto w));
                                 ("email", get "email" (body req))]
                                (clock w)) s))])%list)
            end
        end
    end.
Proof.
  intros Hv Hf Hnone. unfold lacks_signup_fields in Hv.
  unfold signup, try_catch, signup_body, bind. rewrite Hv.
  rewrite (db_query_ok _ _ Hf). simpl.
  rewrite (filter_find_none _ _ Hnone). simpl.
  unfold bcrypt_hash_salted. simpl.
  destruct (bcrypt_hash (entropy w) (get "password" (body req)) 10) as [h|e];
    [|reflexivity].
  unfold db_query.
  assert (E : forall n x, fault_at n (set_entropy x (pop_fault w))
                          = fault_at (S n) w).
  { intros n x. exact (fault_at_pop n w). }
  rewrite E. destruct (fault_at 1 w); [reflexivity|]. simpl.
  unfold generateToken. simpl.
  now destruct (hmac JWT_SECRET _).
Qed.

(** C7.  For each of signup, login, article create, list, read, update,
    delete and the ownership check: whatever is thrown inside the handler
    is caught and the response is exactly 500
    [{success: false, message: "Server error"}], a constant that carries
    nothing of the error; so it is when any store call of the run fails,
    when the hasher fails in signup or login, and when the signer fails in
    signup or login.  Every response of status 400 or more has the body
    [{success: false, message}] and no other field. *)
Theorem failures_collapse (op : Operation) (req : Request) (w : World) :
  (forall e w',
      body_of op req w = (Throw e, w') ->
      fst (handler_of op req w)
      = Respond (mkResponse 500 (envelope false "Server error"))) /\
  (forall k e,
      (k < calls_made w (snd (handler_of op req w)))%nat ->
      fault_at k w = Some e ->
      fst (handler_of op req w)
      = Respond (mkResponse 500 (envelope false "Server error"))) /\
  (forall e,
      lacks_signup_fields req = false ->
      fault_at 0 w = None ->
      find (email_is (get "email" (body req))) (users w) = None ->
      bcrypt_hash (entropy w) (get "password" (body req)) 10 = Throw e ->
      fst (signup req w)
      = Respond (mkResponse 500 (envelope false "Server error"))) /\
  (forall h e,
      lacks_signup_fields req = false ->
      fault_at 0 w = None ->
      find (email_is (get "email" (body req))) (users w) = None ->
      bcrypt_hash (entropy w) (get "password" (body req)) 10 = Ret h ->
      fault_at 1 w = None ->
      hmac JWT_SECRET
           (token_claims [("id", JNum (users_auto w));
                          ("email", get "email" (body req))] (clock w))
      = Throw e ->
      fst (signup req w)
      = Respond (mkResponse 500 (envelope false "Server error"))) /\
  (forall u e,
      lacks_credentials req = false ->
      fault_at 0 w = None ->
      find (email_is (get "email" (body req))) (users w) = Some u ->
      bcrypt_compare (get "password" (body req)) (u_password u) = Throw e \/
      (bcrypt_compare (get "password" (body req)) (u_password u) = Ret true /\
       hmac JWT_SECRET (token_claims (user_row u) (clock w)) = Throw e) ->
      fst (login req w)
      = Respond (mkResponse 500 (envelope false "Server error"))) /\
  error_shaped (fst (handler_of op req w)).
Proof.
  repeat split.
  - intros e w' H. destruct (thrown_is_server_error op req w w' e H) as [-> _].
    reflexivity.
  - intros k e. apply store_error_is_server_error.
  - intros e Hv Hf Hnone Hh. now rewrite (signup_fresh req w Hv Hf Hnone), Hh.
  - intros h e Hv Hf Hnone Hh Hf1 Hs.
    now rewrite (signup_fresh req w Hv Hf Hnone), Hh, Hf1, Hs.
  - intros u e Hv Hf Hsome [Hc|[Hc Hs]];
      rewrite (login_known req w u Hv Hf Hsome), Hc; [|rewrite Hs]; reflexivity.
  - apply handler_shaped.
Qed.

(** *** Reading one article *)

Lemma pairs_filter (f : Article -> bool) (x : Article) (l : list User) :
  filter (fun au => f (fst au)) (map (fun u => (x, u)) l)
  = if f x then map (fun u => (x, u)) l else [].
Proof.
  induction l as [|u l IH]; simpl; [now destruct (f x)|].
  rewrite IH. now destruct (f x).
Qed.




(** *** Validation of article requests *)



Lemma updateArticle_runs (req : Request) (w : World) (s : string) :
  lacks_required req = false ->
  get "content" (body req) = JStr s ->
  fault_at 0 w = None ->
  updateArticle req w =
    (Respond updated,
     snd (update_article
            (get "title" (body req)) (JStr s)
            (JStr (substring 0 150 s ++ "..."))
            (get "category" (body req)) (get "tags" (body req))
            (params_id req) (pop_fault w))).
Proof.
  intros Hv Hc Hf. unfold lacks_required in Hv.
  unfold updateArticle, try_catch, updateArticle_body, bind.
  rewrite Hv, Hc. simpl. now rewrite (db_query_ok _ _ Hf).
Qed.

Lemma createArticle_runs
      (req : Request) (w : World) (s : string) (actor : Obj) :
  lacks_required req = false ->
  get "content" (body req) = JStr s ->
  user req = Some actor ->
  fault_at 0 w = None ->
  createArticle req w =
    (Respond
       (mkResponse 201
          (envelope true "Article created successfully" ++
           [("articleId", FVal (JNum (articles_auto w)))])%list),
     snd (insert_article
            (get "title" (body req)) (JStr s)
            (JStr (substring 0 150 s ++ "..."))
            (get "category" (body req)) (get "tags" (body req))
            (get "id" actor) (pop_fault w))).
Proof.
  intros Hv Hc Hu Hf. unfold lacks_required in Hv.
  unfold createArticle, try_catch, createArticle_body, bind.
  rewrite Hv, Hc. simpl. unfold req_user_id. rewrite Hu. simpl.
  now rewrite (db_query_ok _ _ Hf).
Qed.






(** *** Statements that touch no row *)

Lemma filter_none_hit {A : Type} (f : A -> bool) (l : list A) :
  find f l = None -> filter (fun x => negb (f x)) l = l.
Proof.
  induction l as [|x l IH]; simpl; [easy|].
  destruct (f x); [discriminate|]. intros H. simpl. now rewrite IH.
Qed.

Lemma map_none_hit {A : Type} (f : A -> bool) (g : A -> A) (l : list A) :
  find f l = None -> map (fun x => if f x then g x else x) l = l.
Proof.
  induction l as [|x l IH]; simpl; [easy|].
  destruct (f x); [discriminate|]. intros H. now rewrite IH.
Qed.

Lemma deleteArticle_runs (req : Request) (w : World) :
  fault_at 0 w = None ->
  deleteArticle req w =
    (Respond deleted, snd (delete_article (params_id req) (pop_fault w))).
Proof.
  intros Hf. unfold deleteArticle, try_catch, deleteArticle_body, bind.
  now rewrite (db_query_ok _ _ Hf).
Qed.

(** C10.  When the statement executes, [deleteArticle] answers 200
    [{success: true, message: "Article deleted successfully"}] and
    [updateArticle] (its validation passed, its content a string) answers
    200 [{success: true, message: "Article updated successfully"}],
    whatever the statement's result: also when the id selects no article,
    the result reports zero affected rows and the articles are as they
    were. *)
Theorem mutations_ignore_result (req : Request) (w : World) :
  fault_at 0 w = None ->
  fst (deleteArticle req w)
  = Respond (mkResponse 200 (envelope true "Article deleted successfully")) /\
  (forall s,
      lacks_required req = false ->
      get "content" (body req) = JStr s ->
      fst (updateArticle req w)
      = Respond (mkResponse 200
                   (envelope true "Article updated successfully"))) /\
  (find (id_is (params_id req)) (articles w) = None ->
   get "affectedRows"
       (fst (delete_article (params_id req) (pop_fault w))) = JNum 0 /\
   articles (snd (deleteArticle req w)) = articles w /\
   status_of (fst (deleteArticle req w)) = Some 200 /\
   forall s,
     lacks_required req = false ->
     get "content" (body req) = JStr s ->
     get "affectedRows"
         (fst (update_article
                 (get "title" (body req)) (JStr s)
                 (JStr (substring 0 150 s ++ "..."))
                 (get "category" (body req)) (get "tags" (body req))
                 (params_id req) (pop_fault w))) = JNum 0 /\
     articles (snd (updateArticle req w)) = articles w /\
     status_of (fst (updateArticle req w)) = Some 200).
Proof.
  intros Hf. rewrite (deleteArticle_runs req w Hf).
  split; [reflexivity|]. split.
  - intros s Hv Hc. now rewrite (updateArticle_runs req w s Hv Hc Hf).
  - intros Hnone. simpl.
    change (articles (pop_fault w)) with (articles w).
    rewrite (filter_find_none _ _ Hnone), (filter_none_hit _ _ Hnone).
    repeat split.
    + rewrite (updateArticle_runs req w s H H0 Hf). simpl.
      change (articles (pop_fault w)) with (articles w).
      now rewrite (map_none_hit _ _ _ Hnone).
    + now rewrite (updateArticle_runs req w s H H0 Hf).
Qed.

(** ** Further properties of the handlers *)

(** *** What a run does to the tables and to the console *)

Ltac open_handlers :=
  unfold handler_of, signup, login, createArticle, getAllArticles,
    getArticleById, updateArticle, deleteArticle, checkOwnership,
    body_of, signup_body, login_body, createArticle_body,
    getAllArticles_body, getArticleById_body, updateArticle_body,
    deleteArticle_body, checkOwnership_body,
    try_catch, catch_all, bind, db_query, lift, ret, throw,
    bcrypt_hash_salted, generateToken, summarize, req_user_id;
  cbv zeta.

Ltac split_innermost x :=
  lazymatch x with
  | context [match ?y with _ => _ end] => split_innermost y
  | _ => destruct x
  end.

Ltac split_cases :=
  repeat
    (simpl;
     match goal with
     | |- context [match ?x with _ => _ end] => split_innermost x
     end);
  simpl.

Lemma handlers_frame (op : Operation) (req : Request) (w : World) :
  match op with
  | Op_signup => same_articles w (snd (handler_of op req w))
  | Op_createArticle | Op_updateArticle | Op_deleteArticle =>
      same_users w (snd (handler_of op req w))
  | _ => same_users w (snd (handler_of op req w)) /\
         same_articles w (snd (handler_of op req w))
  end.
Proof.
  unfold same_users, same_articles.
  destruct op; open_handlers; split_cases; repeat split; reflexivity.
Qed.

(** X1.  A handler changes only the table it writes: nothing but signup
    touches the users, nothing but article create, update and delete
    touches the articles; login, the ownership check and both reads leave
    both tables as they were, whatever they answer. *)
Theorem tables_change_only_by_their_writers
        (op : Operation) (req : Request) (w : World) :
  (op <> Op_signup ->
   users (snd (handler_of op req w)) = users w /\
   users_auto (snd (handler_of op req w)) = users_auto w) /\
  (op <> Op_createArticle -> op <> Op_updateArticle ->
   op <> Op_deleteArticle ->
   articles (snd (handler_of op req w)) = articles w /\
   articles_auto (snd (handler_of op req w)) = articles_auto w).
Proof.
  pose proof (handlers_frame op req w) as H.
  unfold same_users, same_articles in H.
  destruct op; split; intros; try contradiction; tauto.
Qed.

Lemma handler_run (op : Operation) (req : Request) (w : World) :
  handler_of op req w =
    match body_of op req w with
    | (Ret o, w') => (o, w')
    | (Throw e, w') =>
        (Respond server_error, console_error (log_prefix op ++ e) w')
    end.
Proof. destruct op; reflexivity. Qed.

Lemma body_keeps_console (op : Operation) (req : Request) (w : World) :
  console (snd (body_of op req w)) = console w.
Proof. destruct op; open_handlers; split_cases; reflexivity. Qed.

Lemma body_never_500 (op : Operation) (req : Request) (w : World) :
  match fst (body_of op req w) with
  | Ret o => status_of o <> Some 500
  | Throw _ => True
  end.
Proof.
  destruct op; open_handlers; split_cases;
    first [exact I | discriminate].
Qed.

(** X2.  The 500 is the mark of the catch block and of nothing else: a
    handler answers 500 exactly when something was thrown inside its try
    block; then the console gets one more line, the handler's prefix
    followed by the error text, and otherwise the console is as it was. *)
Theorem failure_is_logged (op : Operation) (req : Request) (w : World) :
  (status_of (fst (handler_of op req w)) = Some 500 <->
   exists e, fst (body_of op req w) = Throw e) /\
  (forall e,
      fst (body_of op req w) = Throw e ->
      console (snd (handler_of op req w))
      = (console w ++ [(log_prefix op ++ e)%string])%list) /\
  (status_of (fst (handler_of op req w)) <> Some 500 ->
   console (snd (handler_of op req w)) = console w).
Proof.
  rewrite handler_run.
  pose proof (body_keeps_console op req w) as Hc.
  pose proof (body_never_500 op req w) as Hn.
  destruct (body_of op req w) as [[o|e] w']; simpl in *.
  - split; [split|split].
    + intros H. contradiction.
    + intros [e He]. discriminate.
    + intros e He. discriminate.
    + intros _. exact Hc.
  - split; [split|split].
    + intros _. now exists e.
    + reflexivity.
    + intros e' [= <-]. now rewrite Hc.
    + intros H. now contradiction H.
Qed.

(** *** Validation comes before the store *)

(** X3.  A request that fails validation is answered 400 with the
    handler's own message and the world is left exactly as it was: the
    store is not called, so the answer is 400 and not 500 even when the
    store is down. *)
Theorem validation_precedes_store (req : Request) (w : World) :
  (lacks_signup_fields req = true ->
   signup req w
   = (Respond (mkResponse 400 (envelope false "All fields are required")),
      w)) /\
  (lacks_credentials req = true ->
   login req w
   = (Respond
        (mkResponse 400 (envelope false "Email and password are required")),
      w)) /\
  (lacks_required req = true ->
   createArticle req w
   = (Respond
        (mkResponse 400
           (envelope false "Title, content and category are required")),
      w) /\
   updateArticle req w
   = (Respond
        (mkResponse 400
           (envelope false "Title, content and category are required")),
      w)).
Proof.
  unfold lacks_signup_fields, lacks_credentials, lacks_required.
  split; [|split].
  - intros H. open_handlers. now rewrite H.
  - intros H. open_handlers. now rewrite H.
  - intros H. split; open_handlers; now rewrite H.
Qed.

(** *** Signup: what is stored, and what a later signup sees *)

Lemma fault_at_tl2 (w w' : World) (n : nat) :
  faults w' = tl (tl (faults w)) -> fault_at n w' = fault_at (S (S n)) w.
Proof.
  unfold fault_at. intros ->. destruct (faults w) as [|x [|y l]]; simpl;
    try reflexivity; destruct n; reflexivity.
Qed.

Lemma signup_fresh_effect (req : Request) (w : World) (h : JsVal) :
  lacks_signup_fields req = false ->
  fault_at 0 w = None ->
  fault_at 1 w = None ->
  find (email_is (get "email" (body req))) (users w) = None ->
  bcrypt_hash (entropy w) (get "password" (body req)) 10 = Ret h ->
  users (snd (signup req w))
  = (users w ++
     [mkUser (users_auto w) (get "username" (body req))
             (get "email" (body req)) h (clock w)])%list /\
  users_auto (snd (signup req w)) = users_auto w + 1 /\
  faults (snd (signup req w)) = tl (tl (faults w)).
Proof.
  intros Hv Hf Hf1 Hnone Hh. unfold lacks_signup_fields in Hv.
  assert (E : forall x,
             fault_at 0 (set_entropy x (pop_fault w)) = fault_at 1 w).
  { intros x. exact (fault_at_pop 0 w). }
  open_handlers. rewrite Hv, Hf. simpl.
  rewrite (filter_find_none _ _ Hnone). simpl. rewrite Hh, E, Hf1. simpl.
  destruct (hmac JWT_SECRET _); simpl; repeat split; reflexivity.
Qed.

Lemma signup_taken (req : Request) (w : World) (u : User) :
  lacks_signup_fields req = false ->
  fault_at 0 w = None ->
  In u (users w) ->
  email_is (get "email" (body req)) u = true ->
  signup req w = (Respond already_registered, pop_fault w).
Proof.
  intros Hv Hf Hin Hu. unfold lacks_signup_fields in Hv.
  unfold signup, try_catch, signup_body, bind. rewrite Hv.
  rewrite (db_query_ok _ _ Hf). simpl.
  destruct (filter_hit _ _ _ Hin Hu) as (y & rest & ->). reflexivity.
Qed.

Lemma signup_again (req again : Request) (w : World) (h : JsVal) :
  lacks_signup_fields req = false ->
  fault_at 0 w = None ->
  fault_at 1 w = None ->
  find (email_is (get "email" (body req))) (users w) = None ->
  bcrypt_hash (entropy w) (get "password" (body req)) 10 = Ret h ->
  lacks_signup_fields again = false ->
  get "email" (body again) = get "email" (body req) ->
  sql_eq (get "email" (body req)) (get "email" (body req)) = true ->
  fault_at 2 w = None ->
  signup again (snd (signup req w))
  = (Respond already_registered, pop_fault (snd (signup req w))).
Proof.
  intros Hv Hf Hf1 Hnone Hh Hv2 Hsame Hrefl Hf2.
  destruct (signup_fresh_effect req w h Hv Hf Hf1 Hnone Hh) as (Hu & _ & Hfs).
  apply signup_taken
    with (u := mkUser (users_auto w) (get "username" (body req))
                      (get "email" (body req)) h (clock w)).
  - exact Hv2.
  - now rewrite (fault_at_tl2 _ _ 0 Hfs).
  - rewrite Hu. apply in_or_app. right. now left.
  - unfold email_is. simpl. now rewrite Hsame.
Qed.


(** X5.  After a signup that stored its user, a further signup with the
    same email (an email the server's comparison matches with itself) is
    answered 400 "Email already registered" and stores nothing. *)
Theorem signup_then_same_email
        (req again : Request) (w : World) (h : JsVal) :
  lacks_signup_fields req = false ->
  fault_at 0 w = None ->
  fault_at 1 w = None ->
  find (email_is (get "email" (body req))) (users w) = None ->
  bcrypt_hash (entropy w) (get "password" (body req)) 10 = Ret h ->
  lacks_signup_fields again = false ->
  get "email" (body again) = get "email" (body req) ->
  sql_eq (get "email" (body req)) (get "email" (body req)) = true ->
  fault_at 2 w = None ->
  fst (signup again (snd (signup req w))) = Respond already_registered /\
  users (snd (signup again (snd (signup req w))))
  = users (snd (signup req w)).
Proof.
  intros Hv Hf Hf1 Hnone Hh Hv2 Hsame Hrefl Hf2.
  now rewrite (signup_again req again w h
                            Hv Hf Hf1 Hnone Hh Hv2 Hsame Hrefl Hf2).
Qed.


Lemma filter_nil_find {A : Type} (f : A -> bool) (l : list A) :
  filter f l = [] -> find f l = None.
Proof.
  induction l as [|x l IH]; simpl; [easy|].
  destruct (f x); [discriminate | exact IH].
Qed.

Lemma signup_users (req : Request) (w : World) :
  users (snd (signup req w)) = users w \/
  (find (email_is (get "email" (body req))) (users w) = None /\
   exists new,
     u_email new = get "email" (body req) /\
     users (snd (signup req w)) = (users w ++ [new])%list).
Proof.
  open_handlers.
  destruct (_ || _); [now left|].
  destruct (fault_at 0 w); [now left|]. simpl.
  destruct (filter (email_is (get "email" (body req))) (users w)) eqn:E;
    simpl; [|now left].
  apply filter_nil_find in E.
  destruct (bcrypt_hash _ _ _); simpl; [|now left].
  destruct (fault_at 0 _); simpl; [now left|].
  right. split; [exact E|].
  destruct (hmac _ _); simpl; eexists; (split; [|reflexivity]); reflexivity.
Qed.

Lemma emails_distinct_snoc (l : list User) (x : User) :
  emails_distinct (l ++ [x])
  = emails_distinct l &&
    forallb (fun u => negb (sql_eq (u_email u) (u_email x))) l.
Proof.
  induction l as [|u l IH]; simpl; [reflexivity|].
  rewrite forallb_app, IH. simpl.
  generalize (forallb (fun v => negb (sql_eq (u_email u) (u_email v))) l),
    (forallb (fun v => negb (sql_eq (u_email v) (u_email x))) l),
    (emails_distinct l), (sql_eq (u_email u) (u_email x)).
  intros [|] [|] [|] [|]; reflexivity.
Qed.

Lemma find_none_forallb (email : JsVal) (l : list User) :
  find (email_is email) l = None ->
  forallb (fun u => negb (sql_eq (u_email u) email)) l = true.
Proof.
  unfold email_is. induction l as [|u l IH]; simpl; [reflexivity|].
  destruct (sql_eq (u_email u) email); [discriminate|]. exact IH.
Qed.

Lemma emails_distinct_find (l : list User) (v : User) :
  emails_distinct l = true ->
  In v l ->
  sql_eq (u_email v) (u_email v) = true ->
  find (email_is (u_email v)) l = Some v.
Proof.
  intros Hd Hin Hrefl. induction l as [|u l IH]; [contradiction|].
  simpl in Hd. apply andb_true_iff in Hd. destruct Hd as [Hu Hl].
  simpl. unfold email_is at 1.
  destruct Hin as [->|Hin].
  - now rewrite Hrefl.
  - rewrite forallb_forall in Hu. specialize (Hu v Hin).
    apply negb_true_iff in Hu. rewrite Hu. now apply IH.
Qed.

(** X7.  No handler breaks the distinctness of stored emails: when no
    stored email is matched by the email of a user stored before it, that
    still holds after any handler has run (signup inserts only after its
    lookup found nothing), and the lookup by a stored user's email, an
    email the server's comparison matches with itself, finds that very
    user first. *)
Theorem emails_stay_distinct (op : Operation) (req : Request) (w : World) :
  emails_distinct (users w) = true ->
  emails_distinct (users (snd (handler_of op req w))) = true /\
  forall v,
    In v (users (snd (handler_of op req w))) ->
    sql_eq (u_email v) (u_email v) = true ->
    find (email_is (u_email v)) (users (snd (handler_of op req w))) = Some v.
Proof.
  intros Hd.
  assert (Hafter : emails_distinct (users (snd (handler_of op req w))) = true).
  { pose proof (handlers_frame op req w) as H.
    unfold same_users, same_articles in H.
    destruct op;
      try (destruct H as [[-> _] _]; exact Hd);
      try (destruct H as [-> _]; exact Hd).
    simpl. destruct (signup_users req w) as [->|(Hnone & new & He & ->)];
      [exact Hd|].
    rewrite emails_distinct_snoc, Hd, He. simpl.
    now apply find_none_forallb. }
  split; [exact Hafter|].
  intros v Hin Hrefl. now apply emails_distinct_find.
Qed.

(** *** Creating an article *)







(** X9.  A content that passes the validation but is not a string (a
    non-zero number, [true]) makes create and update answer 500: the call
    of [substring] throws inside the try block.  The store is not called
    and nothing changes but the console, which gets the TypeError. *)
Theorem content_must_be_a_string (req : Request) (w : World) :
  lacks_required req = false ->
  (forall s, get "content" (body req) <> JStr s) ->
  createArticle req w
  = (Respond server_error,
     console_error "TypeError: content.substring is not a function" w) /\
  updateArticle req w
  = (Respond server_error,
     console_error
       "Update error: TypeError: content.substring is not a function" w).
Proof.
  intros Hv Hc. unfold lacks_required in Hv.
  split; open_handlers; rewrite Hv;
    destruct (get "content" (body req)) as [| |b|n|s];
    try reflexivity; now contradiction (Hc s).
Qed.

(** X10.  The actor is read inside the try block: a create that passes
    validation but has no actor attached answers 500 and stores nothing,
    and so does the ownership check once its lookup has found the article
    (whereas with no article found it answers 404, actor or not). *)
Theorem missing_actor_is_server_error
        (req : Request) (w : World) (s : string) (a : Article) :
  user req = None ->
  (lacks_required req = false ->
   get "content" (body req) = JStr s ->
   fst (createArticle req w) = Respond server_error /\
   articles (snd (createArticle req w)) = articles w /\
   faults (snd (createArticle req w)) = faults w) /\
  (fault_at 0 w = None ->
   find (id_is (params_id req)) (articles w) = Some a ->
   fst (checkOwnership req w) = Respond server_error).
Proof.
  intros Hu. split.
  - intros Hv Hc. unfold lacks_required in Hv.
    open_handlers. rewrite Hv, Hc, Hu. simpl. now repeat split.
  - intros Hf Hfind. open_handlers. rewrite Hf. simpl.
    destruct (filter_find_some _ _ _ Hfind) as [rest ->]. simpl.
    now rewrite Hu.
Qed.

Lemma find_snoc {A : Type} (f : A -> bool) (l : list A) (x : A) :
  find f l = None -> f x = true -> find f (l ++ [x]) = Some x.
Proof.
  intros Hnone Hx. induction l as [|y l IH]; simpl in *.
  - now rewrite Hx.
  - destruct (f y); [discriminate | now apply IH].
Qed.

(** X11.  Creation and the ownership check agree: after a create by an
    actor, for an id that selects the new article and no older one, the
    check lets through an actor with the same id and answers 403 to an
    actor with any other id. *)
Theorem author_passes_own_gate
        (req later : Request) (w : World) (s : string) (actor other : Obj) :
  lacks_required req = false ->
  get "content" (body req) = JStr s ->
  user req = Some actor ->
  fault_at 0 w = None ->
  fault_at 1 w = None ->
  user later = Some other ->
  find (id_is (params_id later)) (articles w) = None ->
  sql_eq (JNum (articles_auto w)) (params_id later) = true ->
  (get "id" other = get "id" actor ->
   fst (checkOwnership later (snd (createArticle req w))) = Next) /\
  (get "id" other <> get "id" actor ->
   fst (checkOwnership later (snd (createArticle req w)))
   = Respond forbidden).
Proof.
  intros Hv Hc Hu Hf Hf1 Hl Hnone Hid.
  rewrite (createArticle_runs req w s actor Hv Hc Hu Hf). cbn [snd].
  set (new := mkArticle (articles_auto w) (get "title" (body req)) (JStr s)
                        (sql_param (JStr (substring 0 150 s ++ "...")))
                        (sql_param (get "category" (body req)))
                        (sql_param (get "tags" (body req)))
                        (get "id" actor) (clock w)).
  set (w' := snd (insert_article _ _ _ _ _ _ _)).
  assert (Hfind : find (id_is (params_id later)) (articles w') = Some new).
  { apply (find_snoc _ (articles w) new Hnone). exact Hid. }
  assert (Hf' : fault_at 0 w' = None).
  { change (fault_at 0 (pop_fault w) = None). now rewrite fault_at_pop. }
  rewrite (checkOwnership_present later w' other new Hf' Hl Hfind). simpl.
  split.
  - intros E. rewrite E.
    now rewrite (proj2 (strict_ne_false_iff _ _) eq_refl).
  - intros E.
    assert (N : get "id" actor <> get "id" other) by congruence.
    now rewrite (proj2 (strict_ne_true_iff _ _) N).
Qed.

(** *** Deleting and updating *)

Lemma filter_twice {A : Type} (f : A -> bool) (l : list A) :
  filter f (filter f l) = filter f l.
Proof.
  induction l as [|x l IH]; simpl; [reflexivity|].
  destruct (f x) eqn:E; simpl; [rewrite E|]; now rewrite IH.
Qed.

Lemma find_filtered_out {A : Type} (f : A -> bool) (l : list A) :
  find f (filter (fun x => negb (f x)) l) = None.
Proof.
  induction l as [|x l IH]; simpl; [reflexivity|].
  destruct (f x) eqn:E; simpl; [|rewrite E]; exact IH.
Qed.

Lemma deleteArticle_articles (req : Request) (w : World) :
  articles (snd (deleteArticle req w)) = articles w \/
  articles (snd (deleteArticle req w))
  = filter (fun a => negb (id_is (params_id req) a)) (articles w).
Proof.
  open_handlers. destruct (fault_at 0 w); simpl; [now left | now right].
Qed.

(** X12.  A delete whose statement executes removes every article its id
    selects and no other: the remaining articles are the unselected ones in
    their order, the id selects nothing any more, and deleting again with
    the same id, whether that statement executes or not, changes nothing
    further. *)
Theorem deleteArticle_removes (req again : Request) (w : World) :
  fault_at 0 w = None ->
  params_id again = params_id req ->
  articles (snd (deleteArticle req w))
  = filter (fun a => negb (id_is (params_id req) a)) (articles w) /\
  find (id_is (params_id req)) (articles (snd (deleteArticle req w))) = None /\
  (forall a, In a (articles w) -> id_is (params_id req) a = false ->
             In a (articles (snd (deleteArticle req w)))) /\
  articles (snd (deleteArticle again (snd (deleteArticle req w))))
  = articles (snd (deleteArticle req w)).
Proof.
  intros Hf Hid.
  assert (E : articles (snd (deleteArticle req w))
              = filter (fun a => negb (id_is (params_id req) a)) (articles w)).
  { now rewrite (deleteArticle_runs req w Hf). }
  split; [exact E|]. split; [|split].
  - rewrite E. apply find_filtered_out.
  - intros a Hin Ha. rewrite E. apply filter_In. split; [exact Hin|].
    now rewrite Ha.
  - destruct (deleteArticle_articles again (snd (deleteArticle req w)))
      as [->| ->]; [reflexivity|].
    rewrite Hid, E. apply filter_twice.
Qed.

Lemma authored_none (articleId : JsVal) (w : World) :
  find (id_is articleId) (articles w) = None ->
  filter (fun au => id_is articleId (fst au)) (authored w) = [].
Proof.
  unfold authored. induction (articles w) as [|x l IH]; simpl; [reflexivity|].
  destruct (id_is articleId x) eqn:E; [discriminate|]. intros H.
  rewrite filter_app, pairs_filter, E. simpl. now apply IH.
Qed.

Lemma getArticleById_absent (req : Request) (w : World) :
  fault_at 0 w = None ->
  filter (fun au => id_is (params_id req) (fst au)) (authored w) = [] ->
  getArticleById req w = (Respond not_found, pop_fault w).
Proof.
  intros Hf Hnone.
  unfold getArticleById, try_catch, getArticleById_body, bind.
  rewrite (db_query_ok _ _ Hf). simpl.
  change (authored (pop_fault w)) with (authored w). now rewrite Hnone.
Qed.

(** X13.  What has been deleted is gone for the handlers that follow: after
    a delete whose statement executed, the ownership check and the read of
    the same id both answer 404 "Article not found". *)
Theorem deleted_is_not_found (req later : Request) (w : World) :
  fault_at 0 w = None ->
  fault_at 1 w = None ->
  params_id later = params_id req ->
  fst (checkOwnership later (snd (deleteArticle req w))) = Respond not_found /\
  fst (getArticleById later (snd (deleteArticle req w))) = Respond not_found.
Proof.
  intros Hf Hf1 Hid.
  rewrite (deleteArticle_runs req w Hf). cbn [snd].
  set (w' := snd (delete_article (params_id req) (pop_fault w))).
  assert (Hf' : fault_at 0 w' = None).
  { change (fault_at 0 (pop_fault w) = None). now rewrite fault_at_pop. }
  assert (Hgone : find (id_is (params_id later)) (articles w') = None).
  { rewrite Hid. apply find_filtered_out. }
  split.
  - now rewrite (checkOwnership_absent later w' Hf' Hgone).
  - now rewrite (getArticleById_absent later w' Hf' (authored_none _ _ Hgone)).
Qed.



(** *** The reads *)

Lemma insert_desc_perm (x : Article * User) (l : list (Article * User)) :
  Permutation (insert_desc x l) (x :: l).
Proof.
  induction l as [|y l IH]; simpl; [reflexivity|].
  destruct (_ <=? _); [reflexivity|].
  rewrite IH. apply perm_swap.
Qed.

Lemma order_perm (l : list (Article * User)) :
  Permutation (order_by_created_at_desc l) l.
Proof.
  unfold order_by_created_at_desc.
  induction l as [|x l IH]; simpl; [reflexivity|].
  rewrite insert_desc_perm. now constructor.
Qed.

Lemma insert_desc_sorted (x : Article * User) (l : list (Article * User)) :
  newest_first l -> newest_first (insert_desc x l).
Proof.
  unfold newest_first. induction l as [|y l IH]; intros Hs; simpl.
  - constructor; constructor.
  - apply StronglySorted_inv in Hs. destruct Hs as [Hl Hy].
    destruct (a_created_at (fst y) <=? a_created_at (fst x)) eqn:E.
    + apply Z.leb_le in E. constructor.
      * now constructor.
      * constructor; [exact E|].
        eapply Forall_impl; [|exact Hy]. simpl. intros z Hz. lia.
    + apply Z.leb_gt in E. constructor; [now apply IH|].
      eapply Permutation_Forall.
      * symmetry. apply insert_desc_perm.
      * constructor; [lia | exact Hy].
Qed.

Lemma order_sorted (l : list (Article * User)) :
  newest_first (order_by_created_at_desc l).
Proof.
  unfold order_by_created_at_desc.
  induction l as [|x l IH]; simpl; [constructor|].
  now apply insert_desc_sorted.
Qed.

(** X15.  When its statement executes, the list answers 200 with one row
    for every article and author row the join pairs, no pair left out or
    repeated, newest first, and [count] is the number of rows.  A row holds
    the article's columns and the author's username, and neither the
    author's email nor the password. *)
Theorem getAllArticles_lists (req : Request) (w : World) :
  fault_at 0 w = None ->
  exists listing : list (Article * User),
    Permutation listing (authored w) /\
    newest_first listing /\
    fst (getAllArticles req w)
    = Respond (mkResponse 200
                 [("success", FVal (JBool true));
                  ("count", FVal (JNum (Z.of_nat (List.length listing))));
                  ("data", FRows (map article_with_username listing))]) /\
    forall row,
      In row (map article_with_username listing) ->
      has_key "username" row = true /\
      has_key "email" row = false /\
      has_key "password" row = false.
Proof.
  intros Hf. exists (order_by_created_at_desc (authored w)).
  split; [apply order_perm|]. split; [apply order_sorted|]. split.
  - unfold getAllArticles, try_catch, getAllArticles_body, bind.
    rewrite (db_query_ok _ _ Hf). simpl.
    change (authored (pop_fault w)) with (authored w).
    now rewrite length_map.
  - intros row Hin. apply in_map_iff in Hin. destruct Hin as (au & <- & _).
    now repeat split.
Qed.

Lemma getArticleById_data (req : Request) (w : World) (r : Response)
      (row : Obj) :
  fst (getArticleById req w) = Respond r ->
  field "data" (json r) = Some (FRow row) ->
  exists au, row = article_with_author au.
Proof.
  unfold getArticleById, try_catch, getArticleById_body, bind, db_query.
  destruct (fault_at 0 w); simpl.
  - intros [= <-]. discriminate.
  - destruct (filter _ _) as [|au rest]; simpl.
    + intros [= <-]. discriminate.
    + intros [= <-]. simpl. intros [= <-]. now exists au.
Qed.

(** X16.  The single read is an inner join: when the store answers and no
    article the id selects has an author row, be it that the id selects no
    article or that the author is gone, the answer is 404 "Article not
    found".  When it does answer with data, the row has the author's
    username and email, and never the password. *)
Theorem read_joins_author (req : Request) (w : World) :
  (fault_at 0 w = None ->
   (forall a u, In a (articles w) -> In u (users w) ->
                id_is (params_id req) a = true -> wrote a u = false) ->
   fst (getArticleById req w) = Respond not_found) /\
  (forall r row,
      fst (getArticleById req w) = Respond r ->
      field "data" (json r) = Some (FRow row) ->
      has_key "username" row = true /\
      has_key "email" row = true /\
      has_key "password" row = false).
Proof.
  split.
  - intros Hf Hno.
    rewrite (getArticleById_absent req w Hf); [reflexivity|].
    destruct (filter _ (authored w)) as [|[a u] rest] eqn:E; [reflexivity|].
    assert (Hin : In (a, u) (filter (fun au => id_is (params_id req) (fst au))
                                    (authored w))).
    { rewrite E. now left. }
    apply filter_In in Hin. destruct Hin as [Hin Hsel].
    unfold authored in Hin. apply in_flat_map in Hin.
    destruct Hin as (a' & Ha' & Hpair). apply in_map_iff in Hpair.
    destruct Hpair as (u' & [= <- <-] & Hu'). apply filter_In in Hu'.
    destruct Hu' as [Hu' Hw]. simpl in Hsel.
    specialize (Hno a' u' Ha' Hu' Hsel). unfold wrote in Hno.
    rewrite Hno in Hw. discriminate.
  - intros r row Hr Hd.
    destruct (getArticleById_data req w r row Hr Hd) as [au ->].
    now repeat split.
Qed.

(** *** The mutating routes *)

Lemma filter_cons_find {A : Type} (f : A -> bool) (l : list A) (x : A)
      (rest : list A) :
  filter f l = x :: rest -> find f l = Some x.
Proof.
  induction l as [|y l IH]; simpl; [discriminate|].
  destruct (f y); [now intros [= ->] | exact IH].
Qed.

Lemma checkOwnership_next (req : Request) (w : World) :
  fst (checkOwnership req w) = Next ->
  exists actor a,
    user req = Some actor /\
    find (id_is (params_id req)) (articles w) = Some a /\
    a_author_id a = get "id" actor.
Proof.
  open_handlers. destruct (fault_at 0 w); simpl; [discriminate|].
  destruct (filter (id_is (params_id req)) (articles w)) as [|a rest] eqn:E;
    simpl; [discriminate|].
  apply filter_cons_find in E.
  destruct (user req) as [actor|]; simpl; [|discriminate].
  destruct (strict_ne (a_author_id a) (get "id" actor)) eqn:N;
    [discriminate|].
  apply strict_ne_false_iff in N. intros _. now exists actor, a.
Qed.

Lemma checkOwnership_reads (req : Request) (w : World) :
  articles (snd (checkOwnership req w)) = articles w.
Proof. open_handlers; split_cases; reflexivity. Qed.

Lemma verifyJWT_same_id (req : Request) (w : World) :
  params_id (snd (verifyJWT req w)) = params_id req.
Proof.
  unfold verifyJWT. destruct (authorization req); try reflexivity.
  now destruct (verify t (clock w)).
Qed.

(** X17.  On [PUT /:id] and [DELETE /:id] the controller runs only behind
    both gates: whenever such a request changes the articles, the
    authentication layer had let it through with an actor attached, the id
    selected an article, and that article's author id was the actor's
    id. *)
Theorem mutation_needs_owner (m : Method) (req : Request) (w : World) :
  m = PUT \/ m = DELETE ->
  articles (snd (dispatch m ById req w)) <> articles w ->
  exists actor a,
    fst (verifyJWT req w) = Next /\
    user (snd (verifyJWT req w)) = Some actor /\
    find (id_is (params_id req)) (articles w) = Some a /\
    a_author_id a = get "id" actor.
Proof.
  intros Hm Hchanged.
  pose proof (verifyJWT_same_id req w) as Hid.
  assert (Hgate :
            fst (checkOwnership (snd (verifyJWT req w)) w) = Next /\
            fst (verifyJWT req w) = Next).
  { destruct Hm as [-> | ->]; unfold dispatch in Hchanged;
      simpl in Hchanged; unfold as_layer in Hchanged;
      destruct (verifyJWT req w) as [[r|] req']; simpl in *;
      try (now contradiction Hchanged);
      pose proof (checkOwnership_reads req' w) as Ha;
      destruct (fst (checkOwnership req' w)) as [r|]; simpl in *;
      try (now contradiction Hchanged); now split. }
  destruct Hgate as [Hown Hauth].
  destruct (checkOwnership_next _ _ Hown) as (actor & a & Hu & Hfind & Hau).
  rewrite Hid in Hfind. now exists actor, a.
Qed.

(** *** Round trip and the remaining routes *)


(** X19.  An article is only ever created for the authenticated actor: when
    a [POST /] changes the articles, the authentication layer had let the
    request through with an actor attached, and the change is one appended
    article whose author id is that actor's id. *)
Theorem creation_needs_actor (req : Request) (w : World) :
  articles (snd (dispatch POST Root req w)) <> articles w ->
  exists actor a,
    fst (verifyJWT req w) = Next /\
    user (snd (verifyJWT req w)) = Some actor /\
    articles (snd (dispatch POST Root req w)) = (articles w ++ [a])%list /\
    a_author_id a = get "id" actor.
Proof.
  unfold dispatch. simpl. unfold as_layer.
  destruct (verifyJWT req w) as [[r|] req']; simpl;
    [intros H; now contradiction H|].
  assert (E : snd (let '(o, _, w') :=
                     (fst (createArticle req' w), req',
                      snd (createArticle req' w)) in
                   match o with
                   | Respond r => (Respond r, w')
                   | Next => (Next, w')
                   end)
              = snd (createArticle req' w)).
  { now destruct (fst (createArticle req' w)). }
  rewrite E. clear E. open_handlers.
  destruct (_ || _); simpl; [intros H; now contradiction H|].
  destruct (get "content" (body req')); simpl;
    try (intros H; now contradiction H).
  destruct (user req') as [actor|]; simpl; [|intros H; now contradiction H].
  destruct (fault_at 0 w); simpl; [intros H; now contradiction H|].
  intros _. eexists actor, _. repeat split.
Qed.

End Backend.

(** ** The theorems at work on the reference store *)

Lemma checkOwnership_decides_witness :
  fault_at 0 w_blog = None /\
  user bo_on_post1 = Some (claims_of bo) /\
  (a_author_id post1 <> get "id" (claims_of bo) ->
   fst (checkOwnership ref_sql_eq bo_on_post1 w_blog) = Respond forbidden /\
   status_of (fst (checkOwnership ref_sql_eq bo_on_post1 w_blog))
   <> Some 404) /\
  (a_author_id post1 = get "id" (claims_of bo) ->
   fst (checkOwnership ref_sql_eq bo_on_post1 w_blog) = Next).
Proof.
  split; [reflexivity|]. split; [reflexivity|].
  exact (checkOwnership_decides ref_sql_eq bo_on_post1 w_blog (claims_of bo)
                                eq_refl eq_refl).
Defined.

Lemma checkOwnership_exact_witness :
  fault_at 0 w_blog = None /\
  user five_as_string_on_post1
  = Some [("id", JStr "5"); ("email", JStr "a@x.com")] /\
  find (id_is ref_sql_eq (params_id five_as_string_on_post1)) (articles w_blog)
  = Some post1 /\
  fst (checkOwnership ref_sql_eq five_as_string_on_post1 w_blog)
  = Respond forbidden.
Proof.
  split; [reflexivity|]. split; [reflexivity|]. split; [reflexivity|].
  refine (proj1 (proj2 (checkOwnership_exact
                          ref_sql_eq five_as_string_on_post1 w_blog
                          [("id", JStr "5"); ("email", JStr "a@x.com")] post1
                          eq_refl eq_refl eq_refl)) _).
  simpl. discriminate.
Defined.

Lemma login_failures_coincide_witness :
  lacks_credentials (req_login "z@x.com" "pw1") = false /\
  lacks_credentials (req_login "a@x.com" "bad") = false /\
  fault_at 0 w_blog = None /\
  find (email_is ref_sql_eq (get "email" (body (req_login "z@x.com" "pw1"))))
       (users w_blog) = None /\
  find (email_is ref_sql_eq (get "email" (body (req_login "a@x.com" "bad"))))
       (users w_blog) = Some al /\
  ref_bcrypt_compare (get "password" (body (req_login "a@x.com" "bad")))
                     (u_password al) = Ret false /\
  fst (login ref_sql_eq ref_bcrypt_compare ref_hmac ref_secret ref_expires_in
             (req_login "z@x.com" "pw1") w_blog)
  = fst (login ref_sql_eq ref_bcrypt_compare ref_hmac ref_secret ref_expires_in
               (req_login "a@x.com" "bad") w_blog).
Proof.
  do 6 (split; [reflexivity|]).
  exact (proj1 (login_failures_coincide
                  ref_sql_eq ref_bcrypt_compare ref_hmac ref_secret
                  ref_expires_in
                  (req_login "z@x.com" "pw1") (req_login "a@x.com" "bad")
                  w_blog w_blog al
                  eq_refl eq_refl eq_refl eq_refl eq_refl eq_refl eq_refl)).
Defined.

Lemma login_issues_claims_witness :
  filter (email_is ref_sql_eq (u_email al)) (users w_blog) = [al] /\
  ref_bcrypt_compare (get "password" (body (req_login "a@x.com" "pw1")))
                     (u_password al) = Ret true /\
  ref_hmac ref_secret (token_claims ref_expires_in (user_row al) (clock w_blog))
  = Ret al_signature /\
  2000 < clock w_blog + ref_expires_in /\
  exists (t : Token) (claims : Obj),
    fst (login ref_sql_eq ref_bcrypt_compare ref_hmac ref_secret ref_expires_in
               (req_login "a@x.com" "pw1") w_blog)
    = Respond (mkResponse 200
                 (envelope true "Login successful" ++
                  [("token", FToken t)])%list) /\
    verify ref_hmac ref_secret t 2000 = inl claims /\
    keys claims = ["id"; "email"; "issuedAt"; "expiresAt"] /\
    get "id" claims = JNum (u_id al) /\
    get "email" claims = u_email al /\
    has_key "password" claims = false.
Proof.
  do 4 (split; [reflexivity|]).
  exact (login_issues_claims
           ref_sql_eq ref_bcrypt_compare ref_hmac ref_secret ref_expires_in
           (req_login "a@x.com" "pw1") w_blog al al_signature 2000
           eq_refl eq_refl eq_refl eq_refl eq_refl eq_refl eq_refl).
Defined.

Lemma signup_conflict_witness :
  lacks_signup_fields req_signup_al = false /\
  fault_at 0 w_blog = None /\
  In al (users w_blog) /\
  email_is ref_sql_eq (get "email" (body req_signup_al)) al = true /\
  fst (signup ref_sql_eq ref_bcrypt_hash ref_hmac ref_secret ref_expires_in
              req_signup_al w_blog)
  = Respond already_registered /\
  users (snd (signup ref_sql_eq ref_bcrypt_hash ref_hmac ref_secret
                     ref_expires_in req_signup_al w_blog))
  = users w_blog.
Proof.
  split; [reflexivity|]. split; [reflexivity|].
  split; [left; reflexivity|]. split; [reflexivity|].
  pose proof (signup_conflict
                ref_sql_eq ref_bcrypt_hash ref_hmac ref_secret ref_expires_in
                req_signup_al w_blog al
                eq_refl eq_refl (or_introl eq_refl) eq_refl) as H.
  split; [exact (proj1 H) | exact (proj1 (proj2 (proj2 (proj2 (proj2 H)))))].
Defined.

(** C4, as the specification words it, fails on the store that holds
    a@x.com: the message of the conflict response is "Email already
    registered", which names the email. *)
Lemma signup_conflict_names_email :
  ~ conflict_as_specified ref_sql_eq ref_bcrypt_hash ref_hmac ref_secret
      ref_expires_in req_signup_al w_blog.
Proof.
  intros (_ & _ & m & Hm & Hn).
  vm_compute in Hm. injection Hm as <-.
  vm_compute in Hn. discriminate.
Qed.

Lemma update_keeps_author_witness :
  exists (actor : Obj) (a : Article),
    user al_on_post1 = Some actor /\
    articles (snd (createArticle al_on_post1 w_blog))
    = (articles w_blog ++ [a])%list /\
    a_author_id a = get "id" actor /\
    Forall2 (kept ref_sql_eq (params_id bo_on_post1))
            (articles (snd (createArticle al_on_post1 w_blog)))
            (articles (snd (updateArticle ref_sql_eq bo_on_post1
                              (snd (createArticle al_on_post1 w_blog))))).
Proof.
  exact (proj2 (proj2 (update_keeps_author ref_sql_eq bo_on_post1 w_blog))
               al_on_post1 _ eq_refl eq_refl).
Defined.

Lemma failures_collapse_witness :
  fst (checkOwnership ref_sql_eq al_on_post1 w_down)
  = Respond (mkResponse 500 (envelope false "Server error")) /\
  fst (signup ref_sql_eq ref_bcrypt_hash ref_hmac ref_secret ref_expires_in
              req_signup_numeric_password w_blog)
  = Respond (mkResponse 500 (envelope false "Server error")).
Proof.
  split.
  - exact (proj1 (failures_collapse
                    ref_sql_eq ref_bcrypt_hash ref_bcrypt_compare ref_hmac
                    ref_secret ref_expires_in Op_checkOwnership
                    al_on_post1 w_down)
                 "Error: connect ECONNREFUSED" (pop_fault w_down) eq_refl).
  - exact (proj1 (proj2 (proj2
                    (failures_collapse
                       ref_sql_eq ref_bcrypt_hash ref_bcrypt_compare ref_hmac
                       ref_secret ref_expires_in Op_signup
                       req_signup_numeric_password w_blog)))
                 "Error: data must be a string or Buffer"
                 eq_refl eq_refl eq_refl eq_refl).
Defined.




Lemma mutations_ignore_result_witness :
  fault_at 0 w_blog = None /\
  find (id_is ref_sql_eq (params_id anyone_on_post9)) (articles w_blog)
  = None /\
  fst (deleteArticle ref_sql_eq anyone_on_post9 w_blog)
  = Respond (mkResponse 200 (envelope true "Article deleted successfully")) /\
  fst (updateArticle ref_sql_eq anyone_on_post9 w_blog)
  = Respond (mkResponse 200 (envelope true "Article updated successfully")) /\
  articles (snd (deleteArticle ref_sql_eq anyone_on_post9 w_blog))
  = articles w_blog.
Proof.
  split; [reflexivity|]. split; [reflexivity|].
  pose proof (mutations_ignore_result ref_sql_eq anyone_on_post9 w_blog eq_refl)
    as (Hd & Hu & Hz).
  split; [exact Hd|]. split; [exact (Hu "C" eq_refl eq_refl)|].
  exact (proj1 (proj2 (Hz eq_refl))).
Defined.

(** ** Scenarios of the specification, run through the router *)

(** Signup, then a second signup with the same email: 201, then 400. *)
Example signup_twice :
  let first := signup ref_sql_eq ref_bcrypt_hash ref_hmac ref_secret
                      ref_expires_in req_signup_al w_fresh in
  status_of (fst first) = Some 201 /\
  fst (signup ref_sql_eq ref_bcrypt_hash ref_hmac ref_secret ref_expires_in
              req_signup_al (snd first))
  = Respond already_registered.
Proof. split; reflexivity. Qed.

(** An article of user 5: user 6 is refused with 403, user 5 updates it,
    and a request without a token does not get past the first layer. *)
Example update_by_other_then_by_author :
  let put := dispatch ref_sql_eq ref_hmac ref_secret "Unauthorized" PUT ById in
  fst (put (put_post1 (Bearer bo_token)) w_blog) = Respond forbidden /\
  fst (put (put_post1 (Bearer al_token)) w_blog) = Respond updated /\
  status_of (fst (put (put_post1 NoHeader) w_blog)) = Some 401 /\
  map a_author_id (articles (snd (put (put_post1 (Bearer al_token)) w_blog)))
  = [JNum 5].
Proof. repeat split; reflexivity. Qed.

(** Reading an id that selects nothing: 404, token or no token. *)
Example read_missing :
  let read := dispatch ref_sql_eq ref_hmac ref_secret "Unauthorized" GET ById in
  fst (read anyone_on_post9 w_blog) = Respond not_found /\
  fst (read (mkRequest (JStr "9") [] (Bearer al_token) None) w_blog)
  = Respond not_found.
Proof. split; reflexivity. Qed.

(** ** The further properties at work on the reference store *)

Lemma failure_is_logged_witness :
  console (snd (checkOwnership ref_sql_eq al_on_post1 w_down))
  = ["Ownership check error: Error: connect ECONNREFUSED"].
Proof.
  exact (proj1 (proj2 (failure_is_logged
                         ref_sql_eq ref_bcrypt_hash ref_bcrypt_compare
                         ref_hmac ref_secret ref_expires_in
                         Op_checkOwnership al_on_post1 w_down))
               "Error: connect ECONNREFUSED" eq_refl).
Defined.

Lemma validation_precedes_store_witness :
  lacks_signup_fields req_missing_password = true /\
  fault_at 0 w_down = Some "Error: connect ECONNREFUSED" /\
  signup ref_sql_eq ref_bcrypt_hash ref_hmac ref_secret ref_expires_in
         req_missing_password w_down
  = (Respond (mkResponse 400 (envelope false "All fields are required")),
     w_down).
Proof.
  split; [reflexivity|]. split; [reflexivity|].
  exact (proj1 (validation_precedes_store
                  ref_sql_eq ref_bcrypt_hash ref_bcrypt_compare ref_hmac
                  ref_secret ref_expires_in req_missing_password w_down)
               eq_refl).
Defined.


Lemma signup_then_same_email_witness :
  fst (signup ref_sql_eq ref_bcrypt_hash ref_hmac ref_secret ref_expires_in
              req_signup_cy
              (snd (signup ref_sql_eq ref_bcrypt_hash ref_hmac ref_secret
                           ref_expires_in req_signup_cy w_blog)))
  = Respond already_registered.
Proof.
  exact (proj1 (signup_then_same_email
                  ref_sql_eq ref_bcrypt_hash ref_hmac ref_secret
                  ref_expires_in req_signup_cy req_signup_cy w_blog
                  (JStr "$2b$10$7$pw3")
                  eq_refl eq_refl eq_refl eq_refl eq_refl eq_refl eq_refl
                  eq_refl eq_refl)).
Defined.


Lemma emails_stay_distinct_witness :
  emails_distinct ref_sql_eq (users w_blog) = true /\
  emails_distinct ref_sql_eq
    (users (snd (signup ref_sql_eq ref_bcrypt_hash ref_hmac ref_secret
                        ref_expires_in req_signup_cy w_blog)))
  = true.
Proof.
  split; [reflexivity|].
  exact (proj1 (emails_stay_distinct
                  ref_sql_eq ref_bcrypt_hash ref_bcrypt_compare ref_hmac
                  ref_secret ref_expires_in Op_signup req_signup_cy w_blog
                  eq_refl)).
Defined.


Lemma content_must_be_a_string_witness :
  lacks_required al_sends_number = false /\
  fst (createArticle al_sends_number w_blog) = Respond server_error /\
  fst (updateArticle ref_sql_eq al_sends_number w_blog) = Respond server_error.
Proof.
  split; [reflexivity|].
  assert (H : forall s, get "content" (body al_sends_number) <> JStr s).
  { intros s E. vm_compute in E. discriminate E. }
  pose proof (content_must_be_a_string ref_sql_eq al_sends_number w_blog
                                       eq_refl H) as [Hc Hu].
  split; [exact (f_equal fst Hc) | exact (f_equal fst Hu)].
Defined.

Lemma missing_actor_is_server_error_witness :
  user anyone_on_post1 = None /\
  fst (createArticle anyone_on_post1 w_blog) = Respond server_error /\
  fst (checkOwnership ref_sql_eq anyone_on_post1 w_blog)
  = Respond server_error.
Proof.
  split; [reflexivity|].
  pose proof (missing_actor_is_server_error
                ref_sql_eq anyone_on_post1 w_blog "C" post1 eq_refl)
    as [Hc Hg].
  split; [exact (proj1 (Hc eq_refl eq_refl)) | exact (Hg eq_refl eq_refl)].
Defined.

Lemma author_passes_own_gate_witness :
  find (id_is ref_sql_eq (params_id al_on_post2)) (articles w_blog) = None /\
  fst (checkOwnership ref_sql_eq al_on_post2
                      (snd (createArticle al_on_post1 w_blog)))
  = Next.
Proof.
  split; [reflexivity|].
  exact (proj1 (author_passes_own_gate
                  ref_sql_eq al_on_post1 al_on_post2 w_blog "C"
                  (claims_of al) (claims_of al)
                  eq_refl eq_refl eq_refl eq_refl eq_refl eq_refl eq_refl
                  eq_refl)
               eq_refl).
Defined.

Lemma deleteArticle_removes_witness :
  articles (snd (deleteArticle ref_sql_eq al_on_post1 w_two)) = [post2] /\
  articles (snd (deleteArticle ref_sql_eq al_on_post1
                   (snd (deleteArticle ref_sql_eq al_on_post1 w_two))))
  = articles (snd (deleteArticle ref_sql_eq al_on_post1 w_two)).
Proof.
  pose proof (deleteArticle_removes ref_sql_eq al_on_post1 al_on_post1 w_two
                                    eq_refl eq_refl) as H.
  exact (conj (proj1 H) (proj2 (proj2 (proj2 H)))).
Defined.

Lemma deleted_is_not_found_witness :
  fst (getArticleById ref_sql_eq anyone_on_post1 w_two) <> Respond not_found /\
  fst (getArticleById ref_sql_eq anyone_on_post1
                      (snd (deleteArticle ref_sql_eq al_on_post1 w_two)))
  = Respond not_found.
Proof.
  split; [discriminate|].
  exact (proj2 (deleted_is_not_found
                  ref_sql_eq al_on_post1 anyone_on_post1 w_two
                  eq_refl eq_refl eq_refl)).
Defined.


Lemma getAllArticles_lists_witness :
  exists listing : list (Article * User),
    Permutation listing (authored ref_sql_eq w_two) /\
    newest_first listing /\
    fst (getAllArticles ref_sql_eq anyone_on_post1 w_two)
    = Respond (mkResponse 200
                 [("success", FVal (JBool true));
                  ("count", FVal (JNum (Z.of_nat (List.length listing))));
                  ("data",
                   FRows (map article_with_username listing))]) /\
    forall row,
      In row (map article_with_username listing) ->
      has_key "username" row = true /\
      has_key "email" row = false /\
      has_key "password" row = false.
Proof.
  exact (getAllArticles_lists ref_sql_eq anyone_on_post1 w_two eq_refl).
Defined.

Lemma read_joins_author_witness :
  find (id_is ref_sql_eq (params_id anyone_on_post1)) (articles w_orphan)
  = Some post1 /\
  fst (getArticleById ref_sql_eq anyone_on_post1 w_orphan)
  = Respond not_found.
Proof.
  split; [reflexivity|].
  apply (proj1 (read_joins_author ref_sql_eq anyone_on_post1 w_orphan));
    [reflexivity|].
  intros a u [<-|[<-|[]]] [<-|[]] H; vm_compute in H;
    first [discriminate H | reflexivity].
Defined.

Lemma mutation_needs_owner_witness :
  exists actor a,
    fst (verifyJWT ref_hmac ref_secret "Unauthorized"
                   (put_post1 (Bearer al_token)) w_blog) = Next /\
    user (snd (verifyJWT ref_hmac ref_secret "Unauthorized"
                         (put_post1 (Bearer al_token)) w_blog))
    = Some actor /\
    find (id_is ref_sql_eq (params_id (put_post1 (Bearer al_token))))
         (articles w_blog) = Some a /\
    a_author_id a = get "id" actor.
Proof.
  apply (mutation_needs_owner ref_sql_eq ref_hmac ref_secret "Unauthorized"
                              PUT (put_post1 (Bearer al_token)) w_blog).
  - left. reflexivity.
  - intros H. vm_compute in H. discriminate H.
Defined.


Lemma creation_needs_actor_witness :
  exists actor a,
    fst (verifyJWT ref_hmac ref_secret "Unauthorized"
                   (put_post1 (Bearer al_token)) w_blog) = Next /\
    user (snd (verifyJWT ref_hmac ref_secret "Unauthorized"
                         (put_post1 (Bearer al_token)) w_blog))
    = Some actor /\
    articles (snd (dispatch ref_sql_eq ref_hmac ref_secret "Unauthorized"
                            POST Root (put_post1 (Bearer al_token)) w_blog))
    = (articles w_blog ++ [a])%list /\
    a_author_id a = get "id" actor.
Proof.
  apply (creation_needs_actor ref_sql_eq ref_hmac ref_secret "Unauthorized"
                              (put_post1 (Bearer al_token)) w_blog).
  intros H. vm_compute in H. discriminate H.
Defined.
